(** * AWS scanner command-line tool: model and verified properties

    A shallow embedding of [aws_scanner_cli_final.py]: the credential
    resolver [get_profiles], the two scanner classes [EC2_Scanner] and
    [EBS_Scanner] with their four query methods, and the [__main__]
    dispatcher.

    Python dictionaries are finite maps ([gmap]), Python's [None] is
    [None] of an option type, exceptions are values of [exn], and every
    interaction with the outside world (printing, reading the config
    file, opening an SDK handle, calling an SDK endpoint) is recorded as
    an [Event] in the trace carried by the [Py] monad. *)

From Stdlib Require Import ZArith Ascii String.
From stdpp Require Import gmap strings list fin_maps.

Open Scope string_scope.
Open Scope list_scope.

(** ** Exceptions, events and the [Py] monad *)

Inductive exn : Type :=
| Exception (msg : string)
| ValueError (msg : string)
| KeyError (key : string)
| AttributeError (msg : string)
| GetoptError (msg : string)
| LibraryError (msg : string).

(** A request filter, the dictionary [{"Name": ..., "Values": [...]}]. *)
Record Filter : Type := mkFilter { Name : string; Values : list string }.

(** What [profile.get("aws_access_key_id")] can evaluate to: [None], a
    string of a section, or a whole section when [profile] is the full
    mapping. *)
Inductive cred : Type :=
| CredNone
| CredStr (s : string)
| CredSection (d : gmap string string).

Inductive Event : Type :=
| Print (msg : string)
| ReadConfig (path : string)
| Boto3Resource (key secret : cred) (region_name : option string)
| Boto3Client (key secret : cred) (region_name : option string)
| InstancesFilter (Filters : list Filter)
| DescribeVolumes
| Help (cls : string).

(** A computation: the events it performed, then an exception or a value. *)
Definition Py (A : Type) : Type := list Event * (exn + A).

Definition ret {A} (a : A) : Py A := ([], inr a).
Definition raise {A} (e : exn) : Py A := ([], inl e).
Definition emit (ev : Event) : Py unit := ([ev], inr tt).
Definition lift {A} (r : exn + A) : Py A := ([], r).

Definition bind {A B} (m : Py A) (k : A → Py B) : Py B :=
  match m with
  | (t, inl e) => (t, inl e)
  | (t, inr a) => let '(t', r) := k a in (t ++ t', r)
  end.

(** [try: body except: handler] with a bare [except]. *)
Definition try_except {A} (body : Py A) (handler : Py A) : Py A :=
  match body with
  | (t, inl _) => let '(t', r) := handler in (t ++ t', r)
  | (t, inr a) => (t, inr a)
  end.

Declare Scope py_scope.
Delimit Scope py_scope with py.
Notation "'let*' x ':=' m 'in' k" := (bind m (λ x, k))
  (at level 10, x name, m at level 100, k at level 200) : py_scope.
Open Scope py_scope.

Definition trace {A} (m : Py A) : list Event := fst m.
Definition outcome {A} (m : Py A) : exn + A := snd m.

(** Python truthiness of an optional string: [None] and [""] are falsy. *)
Definition truthy (s : option string) : bool :=
  match s with
  | None => false
  | Some s => negb (String.eqb s "")
  end.

(** ** The credential resolver *)

(** The state of a [configparser.RawConfigParser] after [read]: the
    options of the implicit [DEFAULT] section and the named sections.
    Section names are case-sensitive, so [default] is an ordinary
    section. *)
Record RawConfigParser : Type := mkConfig {
  _defaults : gmap string string;
  _sections : gmap string (gmap string string)
}.

Definition default_section : string := "DEFAULT".

(** [dict(config[name])]: a section proxy lists the section's own options
    and the defaults ([options] copies the section and updates it with
    the defaults' keys); reading an option looks in the section first and
    falls back on the defaults. *)
Definition dict_of_proxy (config : RawConfigParser) (name : string)
  : gmap string string :=
  if decide (name = default_section) then _defaults config
  else default ∅ (_sections config !! name) ∪ _defaults config.

(** [config.items()]: the default section first, then every section. *)
Definition items (config : RawConfigParser)
  : list (string * gmap string string) :=
  (default_section, dict_of_proxy config default_section)
    :: map (λ kv, (kv.1, dict_of_proxy config kv.1))
           (map_to_list (_sections config)).

(** A dictionary comprehension: later pairs overwrite earlier ones. *)
Definition dict_of_pairs {V} (l : list (string * V)) : gmap string V :=
  foldl (λ d kv, <[kv.1 := kv.2]> d) ∅ l.

(** [d.pop(key)] without a default raises [KeyError] on a missing key. *)
Definition pop {V} (key : string) (d : gmap string V)
  : exn + (V * gmap string V) :=
  match d !! key with
  | Some v => inr (v, delete key d)
  | None => inl (KeyError key)
  end.

(** The three shapes of the value [get_profiles] returns. *)
Inductive profiles : Type :=
| ProfileNone
| ProfileSection (d : gmap string string)
| ProfileAll (d : gmap string (gmap string string)).

(** The file system as seen by [config.read]: a missing file reads as an
    empty parser, a malformed one raises. *)
Definition FileSystem : Type := string → exn + RawConfigParser.

Definition get_profiles (fs : FileSystem) (profile : option string)
    (config_path : string) : Py profiles :=
  let* _ := emit (ReadConfig config_path) in
  let* config := lift (fs config_path) in
  let config_dict := dict_of_pairs (items config) in
  let* popped := lift (pop "DEFAULT" config_dict) in
  let config_dict := popped.2 in
  if truthy profile then
    ret (match config_dict !! default "" profile with
         | Some d => ProfileSection d
         | None => ProfileNone
         end)
  else ret (ProfileAll config_dict).

(** ** Tables

    The part of pandas the program uses.  A cell holds a leaf value, a
    nested record (an attachment, a tag) or a list kept whole; a missing
    key of a row is pandas' NaN.  Column order and index labels are not
    modelled. *)

Inductive scalar : Type :=
| SBool (b : bool)
| SInt (z : Z)
| SStr (s : string).

#[local] Set Warnings "-register-all".
Inductive cell : Type :=
| Atom (s : scalar)
| Struct (d : gmap string scalar)
| Seq (l : list cell).

(** A value of a dictionary handed to [pd.DataFrame]: a scalar or a list. *)
Inductive attribute : Type :=
| Scalar (s : scalar)
| Array (l : list cell).

Record DataFrame : Type := mkFrame {
  columns : gset string;
  rows : list (gmap string cell)
}.

(** [pd.DataFrame()] *)
Definition DataFrame_empty : DataFrame := mkFrame ∅ [].

(** [len(df)] *)
Definition len (df : DataFrame) : nat := length (rows df).

Definition cell_at (i : nat) (a : attribute) : option cell :=
  match a with
  | Scalar s => Some (Atom s)
  | Array l => l !! i
  end.

Definition array_length (a : attribute) : option nat :=
  match a with
  | Scalar _ => None
  | Array l => Some (length l)
  end.

(** [pd.DataFrame(data)] for a dictionary [data]: every list-valued entry
    is a column and all of them must have one length, which is the number
    of rows; scalar entries are repeated on every row.  A dictionary of
    scalars only is refused. *)
Definition DataFrame_of_dict (data : gmap string attribute)
  : exn + DataFrame :=
  if decide (data = ∅) then inr DataFrame_empty
  else
    match omap (λ kv, array_length kv.2) (map_to_list data) with
    | [] =>
        inl (ValueError "If using all scalar values, you must pass an index")
    | n :: lengths =>
        if forallb (Nat.eqb n) lengths then
          inr (mkFrame (dom data)
                       (map (λ i, omap (cell_at i) data) (seq 0 n)))
        else inl (ValueError "All arrays must be of the same length")
    end.

Definition whole_cell (a : attribute) : cell :=
  match a with
  | Scalar s => Atom s
  | Array l => Seq l
  end.

(** [pd.DataFrame(records)] for a list of dictionaries: one row per
    dictionary, the columns are the union of their keys. *)
Definition DataFrame_of_records (records : list (gmap string attribute))
  : DataFrame :=
  mkFrame (⋃ (dom <$> records)) (map (fmap whole_cell) records).

(** [pd.concat([a, b])] *)
Definition concat (a b : DataFrame) : DataFrame :=
  mkFrame (columns a ∪ columns b) (rows a ++ rows b).

(** [df[name]]: the cells of a column, or [KeyError]. *)
Definition getitem (df : DataFrame) (name : string)
  : exn + list (option cell) :=
  if decide (name ∈ columns df) then inr (map (λ r, r !! name) (rows df))
  else inl (KeyError name).

(** Python's [==] between a cell and a string, and a cell and [False]
    (where [0 == False] holds); NaN and containers compare unequal. *)
Definition eq_str (s : string) (c : option cell) : bool :=
  match c with
  | Some (Atom (SStr t)) => String.eqb t s
  | _ => false
  end.

Definition eq_False (c : option cell) : bool :=
  match c with
  | Some (Atom (SBool b)) => negb b
  | Some (Atom (SInt z)) => Z.eqb z 0
  | _ => false
  end.

(** [df[mask]] for a boolean mask aligned with the rows. *)
Definition boolean_index (df : DataFrame) (mask : list bool) : DataFrame :=
  mkFrame (columns df) (map fst (List.filter snd (zip (rows df) mask))).

(** What a query method returns: [None], a sentinel string or a table. *)
Inductive result : Type :=
| RNone
| RStr (s : string)
| RFrame (df : DataFrame).

(** ** The SDK boundary *)

(** An instance as the resource handle presents it: [instance.id],
    [instance.monitoring["State"]] and [instance.state["Name"]]. *)
Record Instance : Type := mkInstance {
  instance_id : string;
  monitoring_State : string;
  state_Name : string
}.

(** The response of [describe_volumes]:
    [response["ResponseMetadata"]["HTTPStatusCode"]] and
    [response["Volumes"]], each volume being a dictionary. *)
Record VolumesResponse : Type := mkResponse {
  HTTPStatusCode : Z;
  Volumes : list (gmap string attribute)
}.

(** The handles: what [instances.filter(Filters=...)] iterates over and
    what [describe_volumes()] answers, either of which may raise. *)
Record ResourceHandle : Type := mkResource {
  instances_filter : list Filter → exn + list Instance
}.

Record ClientHandle : Type := mkClient {
  describe_volumes : exn + VolumesResponse
}.

Record World : Type := mkWorld {
  fs : FileSystem;
  boto3_resource : cred → cred → option string → exn + ResourceHandle;
  boto3_client : cred → cred → option string → exn + ClientHandle
}.

(** [profile.get(key)] on the value of [get_profiles]. *)
Definition profile_get (profile : profiles) (key : string) : Py cred :=
  match profile with
  | ProfileNone =>
      raise (AttributeError "'NoneType' object has no attribute 'get'")
  | ProfileSection d =>
      ret (match d !! key with Some s => CredStr s | None => CredNone end)
  | ProfileAll d =>
      ret (match d !! key with Some s => CredSection s | None => CredNone end)
  end.

(** ** The instance scanner *)

Module EC2_Scanner.

Record t : Type := mk {
  profile : option string;
  region : option string;
  operation : option string;
  fil : option string;
  sort : option string;
  ec2_resource : option ResourceHandle
}.

Definition __init__ (w : World)
    (profile region operation fil sort : option string) : Py t :=
  let* prof := get_profiles (fs w) profile "config" in
  let* handle :=
    try_except
      (let* key := profile_get prof "aws_access_key_id" in
       let* secret := profile_get prof "aws_secret_access_key" in
       let* _ := emit (Boto3Resource key secret region) in
       let* h := lift (boto3_resource w key secret region) in
       ret (Some h))
      (let* _ := emit (Print "Something went wrong while connecting to EC2") in
       ret None) in
  ret (mk profile region operation fil sort handle).

(** [self.ec2_resource.instances.filter(Filters=...)], iterated. *)
Definition filter_instances (self : t) (Filters : list Filter)
  : Py (list Instance) :=
  match ec2_resource self with
  | None =>
      raise (AttributeError
               "'EC2_Scanner' object has no attribute 'ec2_resource'")
  | Some h =>
      let* _ := emit (InstancesFilter Filters) in
      lift (instances_filter h Filters)
  end.

Definition str_column (l : list string) : attribute :=
  Array (map (λ s, Atom (SStr s)) l).

(** The [Values] list built from [self.fil]. *)
Definition monitoring_values (fil : option string) : list string :=
  if decide (fil = Some "all") then ["enabled"; "disabled"] else [""].

Definition state_values (fil : option string) : list string :=
  if decide (fil = Some "all") then
    ["pending"; "running"; "shutting-down"; "terminated"; "stopping";
     "stopped"]
  else [""].

Definition get_instances_by_monitoring (self : t) : Py result :=
  try_except
    (let fil := monitoring_values (fil self) in
     let* instances :=
       filter_instances self [mkFilter "monitoring-state" fil] in
     let instanceId := map instance_id instances in
     let instanceMontr := map monitoring_State instances in
     let data : gmap string attribute :=
       {[ "Instance" := str_column instanceId;
          "Monitoring" := str_column instanceMontr ]} in
     let* dataframe := lift (DataFrame_of_dict data) in
     if Nat.eqb (len dataframe) 0 then ret (RStr "No Instances")
     else ret (RFrame dataframe))
    (let* _ := emit (Print
       "Something went wrong while getting ec2 instances by monitoring ") in
     ret RNone).

Definition get_instances_by_state (self : t) : Py result :=
  try_except
    (let fil := state_values (fil self) in
     let* instances :=
       filter_instances self [mkFilter "instance-state-name" fil] in
     let instanceId := map instance_id instances in
     let instanceName := map state_Name instances in
     let data : gmap string attribute :=
       {[ "Instance" := str_column instanceId;
          "State" := str_column instanceName ]} in
     let* dataframe := lift (DataFrame_of_dict data) in
     if Nat.eqb (len dataframe) 0 then ret (RStr "No Instances")
     else ret (RFrame dataframe))
    (let* _ := emit (Print
       "Something went wrong while getting ec2 instances by state.") in
     ret RNone).

(** The scanner with another stored filter value. *)
Definition with_fil (f : option string) (self : t) : t :=
  mk (profile self) (region self) (operation self) f (sort self)
     (ec2_resource self).

(** What the instance-list call answers to a request, if the scanner has
    a handle to call. *)
Definition listed (self : t) (Filters : list Filter)
  : option (exn + list Instance) :=
  match ec2_resource self with
  | Some h => Some (instances_filter h Filters)
  | None => None
  end.

(** The rows of the two tables, one per instance. *)
Definition monitoring_row (i : Instance) : gmap string cell :=
  {[ "Instance" := Atom (SStr (instance_id i));
     "Monitoring" := Atom (SStr (monitoring_State i)) ]}.

Definition state_row (i : Instance) : gmap string cell :=
  {[ "Instance" := Atom (SStr (instance_id i));
     "State" := Atom (SStr (state_Name i)) ]}.

End EC2_Scanner.

(** ** The volume scanner *)

Module EBS_Scanner.

Record t : Type := mk {
  profile : option string;
  region : option string;
  operation : option string;
  fil : option string;
  sort : option string;
  ec2_client : option ClientHandle
}.

Definition __init__ (w : World)
    (profile region operation fil sort : option string) : Py t :=
  let* prof := get_profiles (fs w) profile "config" in
  let* handle :=
    try_except
      (let* key := profile_get prof "aws_access_key_id" in
       let* secret := profile_get prof "aws_secret_access_key" in
       let* _ := emit (Boto3Client key secret region) in
       let* h := lift (boto3_client w key secret region) in
       ret (Some h))
      (let* _ := emit (Print "Something went wrong while connecting to EBS") in
       ret None) in
  ret (mk profile region operation fil sort handle).

(** [self.ec2_client.describe_volumes()] *)
Definition call_describe_volumes (self : t) : Py VolumesResponse :=
  match ec2_client self with
  | None =>
      raise (AttributeError
               "'EBS_Scanner' object has no attribute 'ec2_client'")
  | Some h =>
      let* _ := emit DescribeVolumes in
      lift (describe_volumes h)
  end.

(** The loop
    [for each_volume in ...: volumes_df = pd.concat([volumes_df, pd.DataFrame(each_volume)])]. *)
Fixpoint accumulate (volumes_df : DataFrame)
    (volumes : list (gmap string attribute)) : exn + DataFrame :=
  match volumes with
  | [] => inr volumes_df
  | each_volume :: volumes =>
      match DataFrame_of_dict each_volume with
      | inl e => inl e
      | inr df => accumulate (concat volumes_df df) volumes
      end
  end.

(** The guarded loop: rows are added only under status code 200. *)
Definition accumulated (volumes_df : DataFrame)
    (volume_detail : VolumesResponse) : exn + DataFrame :=
  if Z.eqb (HTTPStatusCode volume_detail) 200 then
    accumulate volumes_df (Volumes volume_detail)
  else inr volumes_df.

Definition get_volumes_by_state (self : t) : Py result :=
  try_except
    (let volumes_df := DataFrame_empty in
     let* volume_detail := call_describe_volumes self in
     let* volumes_df := lift (accumulated volumes_df volume_detail) in
     if Nat.eqb (len volumes_df) 0 then ret (RStr "No Volumes")
     else if truthy (fil self) then
       let* state := lift (getitem volumes_df "State") in
       ret (RFrame (boolean_index volumes_df
                      (map (eq_str (default "" (fil self))) state)))
     else ret (RFrame volumes_df))
    (let* _ := emit (Print
       "Something went wrong while getting ebs volumes by state.") in
     ret RNone).

Definition get_volumes_by_encryption (self : t) : Py result :=
  try_except
    (let* response := call_describe_volumes self in
     let volumelist := Volumes response in
     let volumns_df := DataFrame_of_records volumelist in
     if Nat.ltb 0 (len volumns_df) then
       let* encrypted := lift (getitem volumns_df "Encrypted") in
       ret (RFrame (boolean_index volumns_df (map eq_False encrypted)))
     else ret (RStr "No Volumes"))
    (let* _ := emit (Print
       "Something went wrong while getting ebs volumes by encryption.") in
     ret RNone).

(** The scanner with another stored filter value, or another handle. *)
Definition with_fil (f : option string) (self : t) : t :=
  mk (profile self) (region self) (operation self) f (sort self)
     (ec2_client self).

Definition with_client (h : ClientHandle) (self : t) : t :=
  mk (profile self) (region self) (operation self) (fil self) (sort self)
     (Some h).

(** What [describe_volumes] answers, if the scanner has a handle to call. *)
Definition described (self : t) : option (exn + VolumesResponse) :=
  match ec2_client self with
  | Some h => Some (describe_volumes h)
  | None => None
  end.

(** A volume that carries a boolean under [key], as the service's
    [Encrypted] attribute is. *)
Definition has_bool (key : string) (volume : gmap string attribute) : bool :=
  match volume !! key with
  | Some (Scalar (SBool _)) => true
  | _ => false
  end.

(** A row whose [Encrypted] cell is the boolean [False]. *)
Definition unencrypted (row : gmap string cell) : bool :=
  match row !! "Encrypted" with
  | Some (Atom (SBool false)) => true
  | _ => false
  end.

(** The row of a volume whose list-valued attributes have one element,
    and the volumes that are so (say, attached once and without tags). *)
Definition single_row (volume : gmap string attribute) : gmap string cell :=
  omap (cell_at 0) volume.

Definition single_valued (volume : gmap string attribute) : Prop :=
  (∃ k c, volume !! k = Some (Array [c]))
  ∧ ∀ k l, volume !! k = Some (Array l) → length l = 1.

End EBS_Scanner.

(** ** Command-line parsing: [getopt.getopt] *)

Module getopt.

(** [s[n:]] *)
Fixpoint slice_from (n : nat) (s : string) : string :=
  match n, s with
  | S n, String _ s => slice_from n s
  | _, _ => s
  end.

Fixpoint short_has_arg (opt : ascii) (shortopts : string) : exn + bool :=
  match shortopts with
  | "" => inl (GetoptError ("option -" +:+ String opt "" +:+ " not recognized"))
  | String c shortopts =>
      if Ascii.eqb opt c && negb (Ascii.eqb c ":"%char) then
        inr (String.prefix ":" shortopts)
      else short_has_arg opt shortopts
  end.

(** [opt.index('=')] and the two slices around it. *)
Fixpoint split_eq (opt : string) : option (string * string) :=
  match opt with
  | "" => None
  | String c opt =>
      if Ascii.eqb c "="%char then Some ("", opt)
      else match split_eq opt with
           | Some (l, r) => Some (String c l, r)
           | None => None
           end
  end.

Fixpoint endswith_eq (s : string) : bool :=
  match s with
  | "" => false
  | String c "" => Ascii.eqb c "="%char
  | String _ s => endswith_eq s
  end.

(** [s[:-1]] *)
Fixpoint drop_last (s : string) : string :=
  match s with
  | "" => ""
  | String _ "" => ""
  | String c s => String c (drop_last s)
  end.

Definition long_has_args (opt : string) (longopts : list string)
  : exn + (bool * string) :=
  let possibilities := List.filter (String.prefix opt) longopts in
  match possibilities with
  | [] => inl (GetoptError ("option --" +:+ opt +:+ " not recognized"))
  | unique_match :: others =>
      if bool_decide (opt ∈ possibilities) then inr (false, opt)
      else if bool_decide (opt +:+ "=" ∈ possibilities) then inr (true, opt)
      else
        match others with
        | _ :: _ =>
            inl (GetoptError ("option --" +:+ opt +:+ " not a unique prefix"))
        | [] =>
            let has_arg := endswith_eq unique_match in
            inr (has_arg,
                 if has_arg then drop_last unique_match else unique_match)
        end
  end.

(** [do_longs]: the option parsed from [--opt], and whether it took the
    next argument as its value. *)
Definition do_longs (opt : string) (longopts args : list string)
  : exn + ((string * string) * bool) :=
  let '(opt, optarg) :=
    match split_eq opt with
    | Some (l, r) => (l, Some r)
    | None => (opt, None)
    end in
  match long_has_args opt longopts with
  | inl e => inl e
  | inr (has_arg, opt) =>
      if has_arg then
        match optarg with
        | None =>
            match args with
            | [] => inl (GetoptError
                           ("option --" +:+ opt +:+ " requires argument"))
            | optarg :: _ => inr (("--" +:+ opt, optarg), true)
            end
        | Some optarg => inr (("--" +:+ opt, optarg), false)
        end
      else
        match optarg with
        | Some _ => inl (GetoptError
                           ("option --" +:+ opt
                              +:+ " must not have an argument"))
        | None => inr (("--" +:+ opt, ""), false)
        end
  end.

(** [do_shorts]: the options parsed from a cluster [-abc], and whether
    the last of them took the next argument as its value. *)
Fixpoint do_shorts (optstring shortopts : string) (args : list string)
  : exn + (list (string * string) * bool) :=
  match optstring with
  | "" => inr ([], false)
  | String opt optstring =>
      match short_has_arg opt shortopts with
      | inl e => inl e
      | inr true =>
          if String.eqb optstring "" then
            match args with
            | [] => inl (GetoptError
                           ("option -" +:+ String opt "" +:+ " requires argument"))
            | optarg :: _ => inr ([("-" +:+ String opt "", optarg)], true)
            end
          else inr ([("-" +:+ String opt "", optstring)], false)
      | inr false =>
          match do_shorts optstring shortopts args with
          | inl e => inl e
          | inr (opts, took) => inr (("-" +:+ String opt "", "") :: opts, took)
          end
      end
  end.

(** The loop of [getopt]: options are read until the first argument that
    does not start with [-] (or is [-] alone); [--] ends them. *)
Fixpoint loop (opts : list (string * string)) (shortopts : string)
    (longopts args : list string)
  : exn + (list (string * string) * list string) :=
  match args with
  | [] => inr (opts, [])
  | arg :: rest =>
      if negb (String.prefix "-" arg) || String.eqb arg "-" then
        inr (opts, args)
      else if String.eqb arg "--" then inr (opts, rest)
      else
        let step :=
          if String.prefix "--" arg then
            match do_longs (slice_from 2 arg) longopts rest with
            | inl e => inl e
            | inr (o, took) => inr (opts ++ [o], took)
            end
          else
            match do_shorts (slice_from 1 arg) shortopts rest with
            | inl e => inl e
            | inr (os, took) => inr (opts ++ os, took)
            end in
        match step with
        | inl e => inl e
        | inr (opts, false) => loop opts shortopts longopts rest
        | inr (opts, true) =>
            match rest with
            | [] => inr (opts, [])
            | _ :: rest => loop opts shortopts longopts rest
            end
        end
  end.

Definition getopt (args : list string) (shortopts : string)
    (longopts : list string)
  : exn + (list (string * string) * list string) :=
  loop [] shortopts longopts args.

End getopt.

(** ** Observations on traces *)

(** The filters of the instance-list requests a computation issued. *)
Definition requests (t : list Event) : list (list Filter) :=
  omap (λ ev, match ev with InstancesFilter f => Some f | _ => None end) t.

(** The calls to the service a computation performed. *)
Definition network_calls (t : list Event) : list Event :=
  List.filter
    (λ ev, match ev with InstancesFilter _ | DescribeVolumes => true
                    | _ => false end) t.

Definition is_GetoptError (e : exn) : Prop := ∃ msg, e = GetoptError msg.

(** ** The dispatcher *)

Definition options : string := "orpfsh:".
Definition long_options : list string :=
  ["operation="; "region="; "profile="; "filter="; "sort="; "help="].

(** The body of [for currentArgument, currentValue in arguments]. *)
Fixpoint print_help (arguments : list (string * string)) : Py unit :=
  match arguments with
  | [] => ret tt
  | (currentArgument, currentValue) :: arguments =>
      let* _ :=
        if bool_decide (currentArgument ∈ ["-h"; "--help"]) then
          if String.eqb currentValue "ec2" then emit (Help "EC2_Scanner")
          else if String.eqb currentValue "ebs" then emit (Help "EBS_Scanner")
          else
            let* _ := emit (Help "EC2_Scanner") in
            emit (Help "EBS_Scanner")
        else ret tt in
      print_help arguments
  end.

(** The options dictionary the dispatcher builds from the arguments that
    follow the resource selector, when they parse. *)
Definition parsed_options (args : list string) : option (gmap string string) :=
  match getopt.getopt args options long_options with
  | inr parsed => Some (dict_of_pairs parsed.1)
  | inl _ => None
  end.

(** [flag in arguments_dict] *)
Definition present (flag : string) (args : list string) : bool :=
  match parsed_options args with
  | Some arguments_dict => bool_decide (is_Some (arguments_dict !! flag))
  | None => false
  end.

(** The argument [arg] can have produced the required option [k]: it
    starts with two dashes and the option's first letter. *)
Definition names_option (k arg : string) : Prop :=
  (k = "--operation" → String.prefix "--o" arg = true)
  ∧ (k = "--region" → String.prefix "--r" arg = true)
  ∧ (k = "--profile" → String.prefix "--p" arg = true).

(** [__main__], on [sys.argv[1:]]. *)
Definition main (w : World) (argumentList : list string) : Py unit :=
  match argumentList with
  | [] => raise (Exception "Please provide arguments.")
  | aws_service :: _ =>
      if String.eqb aws_service "--help" then
        let argumentList :=
          if Nat.eqb (length argumentList) 1 then argumentList ++ ["both"]
          else argumentList in
        if bool_decide (default "" (argumentList !! 1%nat)
                          ∈ ["ec2"; "ebs"; "both"]) then
          let* parsed :=
            lift (getopt.getopt argumentList options long_options) in
          print_help parsed.1
        else
          raise (ValueError "Valid arguments --help ec2 | --help ebs | --help")
      else
        let argumentList := tail argumentList in
        if bool_decide (aws_service ∈ ["ec2"; "ebs"]) then
          let* parsed :=
            lift (getopt.getopt argumentList options long_options) in
          let arguments_dict := dict_of_pairs parsed.1 in
          if bool_decide (is_Some (arguments_dict !! "--operation"))
             && bool_decide (is_Some (arguments_dict !! "--region"))
             && bool_decide (is_Some (arguments_dict !! "--profile")) then
            let method_to_call := arguments_dict !! "--operation" in
            if String.eqb aws_service "ec2" then
              let* ec2_scanner :=
                EC2_Scanner.__init__ w
                  (arguments_dict !! "--profile")
                  (arguments_dict !! "--region")
                  (arguments_dict !! "--operation")
                  (arguments_dict !! "--filter")
                  (arguments_dict !! "--sort") in
              if bool_decide (method_to_call = Some "state") then
                let* _ := EC2_Scanner.get_instances_by_state ec2_scanner in
                ret tt
              else
                let* _ :=
                  EC2_Scanner.get_instances_by_monitoring ec2_scanner in
                ret tt
            else if String.eqb aws_service "ebs" then
              let* ebs_scanner :=
                EBS_Scanner.__init__ w
                  (arguments_dict !! "--profile")
                  (arguments_dict !! "--region")
                  (arguments_dict !! "--operation")
                  (arguments_dict !! "--filter")
                  (arguments_dict !! "--sort") in
              if bool_decide (method_to_call = Some "state") then
                let* _ := EBS_Scanner.get_volumes_by_state ebs_scanner in
                ret tt
              else
                let* _ := EBS_Scanner.get_volumes_by_encryption ebs_scanner in
                ret tt
            else ret tt
          else
            raise (ValueError
                     "Missing any argument: --operation,--region,--profile")
        else raise (ValueError "Missing ec2 or ebs.")
  end.

(** ** Sample data *)

Definition sample_config : RawConfigParser :=
  mkConfig {[ "region" := "us-east-1" ]}
           {[ "default" := {[ "aws_access_key_id" := "AKIA" ]} ]}.

Definition sample_fs : FileSystem := λ _, inr sample_config.

Definition sample_instances : list Instance :=
  [mkInstance "i-1" "disabled" "running";
   mkInstance "i-2" "enabled" "stopped"].

(** A handle that answers as the service does: with the instances whose
    attribute is among the requested values. *)
Definition sample_resource : ResourceHandle :=
  mkResource (λ Filters,
    inr (List.filter
           (λ i, forallb
                   (λ f, bool_decide
                           ((if String.eqb (Name f) "monitoring-state"
                             then monitoring_State i else state_Name i)
                            ∈ Values f))
                   Filters)
           sample_instances)).

Definition sample_ec2 (fil : option string) : EC2_Scanner.t :=
  EC2_Scanner.mk (Some "default") (Some "us-east-1") (Some "state") fil None
    (Some sample_resource).

Definition sample_volume_in_use : gmap string attribute :=
  {[ "VolumeId" := Scalar (SStr "vol-1");
     "State" := Scalar (SStr "in-use");
     "Encrypted" := Scalar (SBool false);
     "Size" := Scalar (SInt 8);
     "Attachments" :=
       Array [Struct {[ "InstanceId" := SStr "i-1";
                        "Device" := SStr "/dev/xvda";
                        "State" := SStr "attached" ]}] ]}.

Definition sample_volume_encrypted : gmap string attribute :=
  {[ "VolumeId" := Scalar (SStr "vol-2");
     "State" := Scalar (SStr "in-use");
     "Encrypted" := Scalar (SBool true);
     "Size" := Scalar (SInt 20);
     "Attachments" :=
       Array [Struct {[ "InstanceId" := SStr "i-2";
                        "Device" := SStr "/dev/xvda";
                        "State" := SStr "attached" ]}] ]}.

Definition sample_volume_available : gmap string attribute :=
  {[ "VolumeId" := Scalar (SStr "vol-3");
     "State" := Scalar (SStr "available");
     "Encrypted" := Scalar (SBool false);
     "Size" := Scalar (SInt 100);
     "Attachments" := Array [] ]}.

Definition sample_client (status : Z) (volumes : list (gmap string attribute))
  : ClientHandle :=
  mkClient (inr (mkResponse status volumes)).

Definition sample_ebs (fil : option string) (status : Z)
    (volumes : list (gmap string attribute)) : EBS_Scanner.t :=
  EBS_Scanner.mk (Some "default") (Some "us-east-1") (Some "state") fil None
    (Some (sample_client status volumes)).

Definition sample_volumes : list (gmap string attribute) :=
  [sample_volume_in_use; sample_volume_encrypted].

(** The table of [sample_volumes], one row per volume. *)
Definition sample_table : DataFrame :=
  mkFrame (⋃ (dom <$> sample_volumes))
          (map EBS_Scanner.single_row sample_volumes).

Definition sample_world : World :=
  mkWorld sample_fs (λ _ _ _, inr sample_resource)
    (λ _ _ _, inr (sample_client 200 [sample_volume_in_use])).

(** ** Observations used by the further properties *)

(** The value [d.get(key)] of a section's dictionary, as a credential. *)
Definition cred_of (value : option string) : cred :=
  match value with
  | Some s => CredStr s
  | None => CredNone
  end.

(** A volume whose list-valued attributes are all empty (attached
    nowhere, no tags), and a volume with two list-valued attributes of
    different lengths (say, one attachment and two tags). *)
Definition empty_valued (volume : gmap string attribute) : Prop :=
  (∃ k, volume !! k = Some (Array []))
  ∧ ∀ k l, volume !! k = Some (Array l) → l = [].

Definition ragged (volume : gmap string attribute) : Prop :=
  ∃ k1 k2 l1 l2,
    volume !! k1 = Some (Array l1) ∧ volume !! k2 = Some (Array l2)
    ∧ length l1 ≠ length l2.

Definition sample_volume_tagged : gmap string attribute :=
  <[ "Tags" := Array [Struct {[ "Key" := SStr "Name"; "Value" := SStr "db" ]};
                      Struct {[ "Key" := SStr "env"; "Value" := SStr "prod" ]}] ]>
    sample_volume_in_use.

Definition is_Help (ev : Event) : Prop := ∃ cls, ev = Help cls.

(** A trace without any call to the service. *)
Definition quiet (t : list Event) : Prop := network_calls t = [].

(** The exceptions the dispatcher raises itself. *)
Definition argument_error (e : exn) : Prop :=
  e = Exception "Please provide arguments."
  ∨ e = ValueError "Valid arguments --help ec2 | --help ebs | --help"
  ∨ e = ValueError "Missing any argument: --operation,--region,--profile"
  ∨ e = ValueError "Missing ec2 or ebs."
  ∨ is_GetoptError e.

(** The [Name] of the filter an [ec2] invocation requests by. *)
Definition routed_name (arguments_dict : gmap string string) : string :=
  if bool_decide (arguments_dict !! "--operation" = Some "state")
  then "instance-state-name" else "monitoring-state".

(** The number of rows [pd.DataFrame(each_volume)] has: none when the
    construction fails. *)
Definition row_count (volume : gmap string attribute) : nat :=
  match DataFrame_of_dict volume with
  | inr df => len df
  | inl _ => 0
  end.

(** * Properties *)

(** ** The credential resolver *)

Section dict_of_pairs.
Context {V : Type}.
Implicit Types (l : list (string * V)) (d : gmap string V).

Let ins d (kv : string * V) := <[kv.1 := kv.2]> d.

Lemma foldl_insert_notin l d k :
  k ∉ l.*1 → foldl ins d l !! k = d !! k.
Proof.
  revert d. induction l as [|[k' v'] l IH]; intros d Hk; [done|].
  cbn in *. apply not_elem_of_cons in Hk as [Hne Hk].
  rewrite IH by done. unfold ins; cbn. by rewrite lookup_insert_ne.
Qed.

Lemma foldl_insert_in l d k v :
  NoDup l.*1 → (k, v) ∈ l → foldl ins d l !! k = Some v.
Proof.
  revert d. induction l as [|[k' v'] l IH]; intros d Hnd Hin.
  - by apply elem_of_nil in Hin.
  - cbn in *. apply NoDup_cons in Hnd as [Hk' Hnd].
    apply elem_of_cons in Hin as [Heq|Hin].
    + injection Heq as -> ->. rewrite foldl_insert_notin by done.
      unfold ins; cbn. by rewrite lookup_insert_eq.
    + by apply IH.
Qed.
End dict_of_pairs.

(** The dictionary built from [config.items()], key by key. *)
Lemma config_dict_section config k :
  k ≠ "DEFAULT" →
  dict_of_pairs (items config) !! k
  = (λ own, own ∪ _defaults config) <$> (_sections config !! k).
Proof.
  intros Hk. unfold dict_of_pairs, items. cbn [foldl].
  set (l := map _ _).
  assert (Hkeys : l.*1 = (map_to_list (_sections config)).*1).
  { unfold l. rewrite <- !list_fmap_compose. by apply list_fmap_ext. }
  destruct (_sections config !! k) as [own|] eqn:Hown; cbn.
  - apply foldl_insert_in.
    + rewrite Hkeys. apply NoDup_fst_map_to_list.
    + unfold l. apply list_elem_of_fmap.
      exists (k, own). split.
      * cbn. unfold dict_of_proxy. rewrite decide_False by done.
        by rewrite Hown.
      * by apply elem_of_map_to_list.
  - rewrite foldl_insert_notin.
    + cbn. rewrite lookup_insert_ne by (by unfold default_section).
      done.
    + rewrite Hkeys. intros Hin. apply list_elem_of_fmap in Hin as [[k' v] [-> Hin]].
      apply elem_of_map_to_list in Hin. cbn in *. congruence.
Qed.

Lemma config_dict_DEFAULT config :
  is_Some (dict_of_pairs (items config) !! "DEFAULT").
Proof.
  unfold dict_of_pairs, items. cbn [foldl].
  set (l := map _ _).
  assert (Hkeys : l.*1 = (map_to_list (_sections config)).*1).
  { unfold l. rewrite <- !list_fmap_compose. by apply list_fmap_ext. }
  destruct (decide ("DEFAULT" ∈ l.*1)) as [Hin|Hnin].
  - apply list_elem_of_fmap in Hin as [[k v] [Hk Hin]]. cbn in Hk. subst k.
    exists v. apply foldl_insert_in; [|done].
    rewrite Hkeys. apply NoDup_fst_map_to_list.
  - rewrite foldl_insert_notin by done. cbn.
    unfold default_section. rewrite lookup_insert_eq. eauto.
Qed.

Lemma get_profiles_run fs profile path config :
  fs path = inr config →
  get_profiles fs profile path
  = ([ReadConfig path],
     inr (let config_dict := delete "DEFAULT" (dict_of_pairs (items config)) in
          if truthy profile then
            match config_dict !! default "" profile with
            | Some d => ProfileSection d
            | None => ProfileNone
            end
          else ProfileAll config_dict)).
Proof.
  intros Hfs. unfold get_profiles, bind, emit, lift, pop. rewrite Hfs.
  destruct (config_dict_DEFAULT config) as [d ->]. cbn.
  by destruct (truthy profile).
Qed.

(** C2, as the code has it: resolving ["default"] yields the options
    written under [[default]] together with every option of [[DEFAULT]]
    that [[default]] does not define itself, the section's own values
    taking precedence; this is the section's own options exactly when
    [[DEFAULT]] adds none.  The [DEFAULT] section itself is never
    returned: asking for it by name yields [None], and the full mapping
    has no such entry. *)
Theorem get_profiles_default_section fs path config own :
  fs path = inr config →
  _sections config !! "default" = Some own →
  outcome (get_profiles fs (Some "default") path)
    = inr (ProfileSection (own ∪ _defaults config))
  ∧ (dom (_defaults config) ⊆ dom own → own ∪ _defaults config = own)
  ∧ outcome (get_profiles fs (Some "DEFAULT") path) = inr ProfileNone
  ∧ ∃ all, outcome (get_profiles fs None path) = inr (ProfileAll all)
           ∧ all !! "DEFAULT" = None
           ∧ all !! "default" = Some (own ∪ _defaults config).
Proof.
  intros Hfs Hown.
  assert (Hd : delete "DEFAULT" (dict_of_pairs (items config)) !! "default"
               = Some (own ∪ _defaults config)).
  { rewrite lookup_delete_ne by done.
    rewrite config_dict_section by done. by rewrite Hown. }
  repeat split.
  - rewrite (get_profiles_run _ _ _ _ Hfs). unfold outcome. cbn -[lookup delete dict_of_pairs items].
    by rewrite Hd.
  - intros Hsub. apply map_eq. intros k. rewrite lookup_union.
    destruct (own !! k) as [v|] eqn:Hk; [by destruct (_defaults config !! k)|].
    destruct (_defaults config !! k) as [v|] eqn:Hk'; [|done].
    assert (k ∈ dom own) as Hin by (apply Hsub, elem_of_dom; eauto).
    apply elem_of_dom in Hin as [? ?]. congruence.
  - rewrite (get_profiles_run _ _ _ _ Hfs). unfold outcome. cbn -[lookup delete dict_of_pairs items].
    by rewrite lookup_delete_eq.
  - eexists. rewrite (get_profiles_run _ _ _ _ Hfs). unfold outcome. cbn -[lookup delete dict_of_pairs items].
    split; [done|]. split; [apply lookup_delete_eq | exact Hd].
Qed.

Lemma get_profiles_default_section_witness :
  outcome (get_profiles sample_fs (Some "default") "config")
  = inr (ProfileSection
           ({[ "aws_access_key_id" := "AKIA" ]} ∪ _defaults sample_config)).
Proof.
  exact (proj1 (get_profiles_default_section sample_fs "config" sample_config
                  {[ "aws_access_key_id" := "AKIA" ]} eq_refl eq_refl)).
Defined.

(** C2, counterexample to the claim as stated: with [region] written
    under [[DEFAULT]] only, resolving ["default"] returns [region] too,
    not just the key written under [[default]]. *)
Lemma get_profiles_default_inherits :
  _sections sample_config !! "default"
    = Some {[ "aws_access_key_id" := "AKIA" ]}
  ∧ outcome (get_profiles sample_fs (Some "default") "config")
    = inr (ProfileSection
             {[ "aws_access_key_id" := "AKIA"; "region" := "us-east-1" ]})
  ∧ outcome (get_profiles sample_fs (Some "default") "config")
    ≠ inr (ProfileSection {[ "aws_access_key_id" := "AKIA" ]}).
Proof.
  split; [vm_compute; reflexivity|]. split; [vm_compute; reflexivity|].
  intros H.
  assert (Hr : ∀ r : exn + profiles,
             r = inr (ProfileSection {[ "aws_access_key_id" := "AKIA" ]}) →
             match r with
             | inr (ProfileSection d) => d !! "region" = None
             | _ => True
             end) by (by intros ? ->).
  apply Hr in H. vm_compute in H. discriminate.
Qed.

(** ** The [Py] monad *)

Lemma trace_bind {A B} (m : Py A) (k : A → Py B) :
  trace (bind m k)
  = trace m ++ match outcome m with inr a => trace (k a) | inl _ => [] end.
Proof.
  destruct m as [t [e|a]]; cbn; [by rewrite app_nil_r|].
  by destruct (k a).
Qed.

Lemma outcome_bind {A B} (m : Py A) (k : A → Py B) :
  outcome (bind m k)
  = match outcome m with inr a => outcome (k a) | inl e => inl e end.
Proof. destruct m as [t [e|a]]; cbn; [done|]. by destruct (k a). Qed.

Lemma bind_emit {B} ev (k : unit → Py B) :
  bind (emit ev) k = (ev :: trace (k tt), outcome (k tt)).
Proof. unfold bind, emit. by destruct (k tt). Qed.

Lemma bind_pair_inr {A B} t (a : A) (k : A → Py B) :
  bind (t, inr a) k = (t ++ trace (k a), outcome (k a)).
Proof. unfold bind. by destruct (k a). Qed.

Lemma bind_lift_inr {A B} (a : A) (k : A → Py B) : bind (lift (inr a)) k = k a.
Proof. unfold bind, lift. by destruct (k a). Qed.

Lemma bind_lift_inl {A B} (e : exn) (k : A → Py B) :
  bind (lift (inl e)) k = ([], inl e).
Proof. done. Qed.

(** ** Tables *)

Lemma DataFrame_of_dict_uniform (data : gmap string attribute) (n : nat) :
  (∀ k a m, data !! k = Some a → array_length a = Some m → m = n) →
  (∃ k l, data !! k = Some (Array l)) →
  DataFrame_of_dict data
  = inr (mkFrame (dom data) (map (λ i, omap (cell_at i) data) (seq 0 n))).
Proof.
  intros Hall (k & l & Hk). unfold DataFrame_of_dict.
  rewrite decide_False by (intros ->; by rewrite lookup_empty in Hk).
  set (L := omap _ _).
  assert (HL : ∀ m, m ∈ L → m = n).
  { intros m Hm. apply list_elem_of_omap in Hm as ([k' a] & Hin & Ha).
    apply elem_of_map_to_list in Hin. eauto. }
  assert (Hin : length l ∈ L).
  { apply list_elem_of_omap. exists (k, Array l).
    split; [by apply elem_of_map_to_list | done]. }
  destruct L as [|n0 lengths]; [by apply elem_of_nil in Hin|].
  assert (n0 = n) as -> by (apply HL; left).
  assert (forallb (Nat.eqb n) lengths = true) as ->; [|done].
  apply forallb_forall. intros m Hm. apply Nat.eqb_eq. symmetry.
  apply HL. right. by apply list_elem_of_In.
Qed.

Lemma map_seq_lookup {A B} (g : nat → B) (f : A → B) (l : list A) :
  (∀ i x, l !! i = Some x → g i = f x) →
  map g (seq 0 (length l)) = map f l.
Proof.
  intros H. apply list_eq. intros i.
  change (map g) with (fmap (M:=list) g). change (map f) with (fmap (M:=list) f).
  rewrite !list_lookup_fmap.
  destruct (l !! i) as [x|] eqn:Hi.
  - rewrite lookup_seq_lt by (by eapply lookup_lt_Some). cbn.
    f_equal. by apply H.
  - rewrite lookup_seq_ge; [done|]. by apply lookup_ge_None.
Qed.

(** The table of two string columns computed from one list. *)
Lemma two_column_frame {A} (k1 k2 : string) (f g : A → string) (l : list A) :
  k1 ≠ k2 →
  DataFrame_of_dict
    {[ k1 := EC2_Scanner.str_column (map f l);
       k2 := EC2_Scanner.str_column (map g l) ]}
  = inr (mkFrame {[ k1; k2 ]}
           (map (λ x, {[ k1 := Atom (SStr (f x)); k2 := Atom (SStr (g x)) ]})
                l)).
Proof.
  intros Hne. unfold EC2_Scanner.str_column.
  rewrite (DataFrame_of_dict_uniform _ (length l)).
  - f_equal. f_equal.
    + rewrite dom_insert_L, dom_singleton_L. done.
    + apply map_seq_lookup. intros i x Hi.
      assert (Hc : ∀ h : A → string,
                 cell_at i (Array (map (λ s, Atom (SStr s)) (map h l)))
                 = Some (Atom (SStr (h x)))).
      { intros h. cbn.
        change (map ?u ?v) with (fmap (M:=list) u v).
        by rewrite !list_lookup_fmap, Hi. }
      rewrite (omap_insert_Some _ _ _ _ _ (Hc f)).
      by rewrite (omap_singleton_Some _ _ _ _ (Hc g)).
  - intros k a m Hk Ha.
    apply lookup_insert_Some in Hk as [[_ <-]|[_ Hk]].
    + cbn in Ha. injection Ha as <-. by rewrite !length_map.
    + apply lookup_singleton_Some in Hk as [_ <-].
      cbn in Ha. injection Ha as <-. by rewrite !length_map.
  - eexists k1, _. apply lookup_insert_eq.
Qed.

(** ** The instance scanner *)

Lemma get_instances_by_monitoring_run self h :
  EC2_Scanner.ec2_resource self = Some h →
  EC2_Scanner.get_instances_by_monitoring self
  = let Filters := [mkFilter "monitoring-state"
                      (EC2_Scanner.monitoring_values (EC2_Scanner.fil self))] in
    match instances_filter h Filters with
    | inl _ =>
        ([InstancesFilter Filters;
          Print "Something went wrong while getting ec2 instances by monitoring "],
         inr RNone)
    | inr [] => ([InstancesFilter Filters], inr (RStr "No Instances"))
    | inr l =>
        ([InstancesFilter Filters],
         inr (RFrame (mkFrame {[ "Instance"; "Monitoring" ]}
                        (map EC2_Scanner.monitoring_row l))))
    end.
Proof.
  intros Hh. unfold EC2_Scanner.get_instances_by_monitoring,
    EC2_Scanner.filter_instances. rewrite Hh. rewrite bind_emit.
  destruct (instances_filter h _) as [e|l]; [done|].
  cbn [lift trace outcome fst snd]. rewrite bind_pair_inr. cbv beta.
  rewrite two_column_frame by done. rewrite bind_lift_inr.
  by destruct l.
Qed.

Lemma get_instances_by_state_run self h :
  EC2_Scanner.ec2_resource self = Some h →
  EC2_Scanner.get_instances_by_state self
  = let Filters := [mkFilter "instance-state-name"
                      (EC2_Scanner.state_values (EC2_Scanner.fil self))] in
    match instances_filter h Filters with
    | inl _ =>
        ([InstancesFilter Filters;
          Print "Something went wrong while getting ec2 instances by state."],
         inr RNone)
    | inr [] => ([InstancesFilter Filters], inr (RStr "No Instances"))
    | inr l =>
        ([InstancesFilter Filters],
         inr (RFrame (mkFrame {[ "Instance"; "State" ]} (map EC2_Scanner.state_row l))))
    end.
Proof.
  intros Hh. unfold EC2_Scanner.get_instances_by_state,
    EC2_Scanner.filter_instances. rewrite Hh. rewrite bind_emit.
  destruct (instances_filter h _) as [e|l]; [done|].
  cbn [lift trace outcome fst snd]. rewrite bind_pair_inr. cbv beta.
  rewrite two_column_frame by done. rewrite bind_lift_inr.
  by destruct l.
Qed.

Lemma get_instances_no_handle self :
  EC2_Scanner.ec2_resource self = None →
  outcome (EC2_Scanner.get_instances_by_monitoring self) = inr RNone
  ∧ outcome (EC2_Scanner.get_instances_by_state self) = inr RNone.
Proof.
  intros Hh. unfold EC2_Scanner.get_instances_by_monitoring,
    EC2_Scanner.get_instances_by_state, EC2_Scanner.filter_instances.
  by rewrite Hh.
Qed.

(** C1: whatever filter value other than ["all"] the scanner stores
    ([None] included), both queries request the single value [""], and
    run exactly as they do with no filter at all; only ["all"] expands to
    the enumerated states. *)
Theorem ec2_effective_filter self h :
  EC2_Scanner.ec2_resource self = Some h →
  EC2_Scanner.fil self ≠ Some "all" →
  requests (trace (EC2_Scanner.get_instances_by_monitoring self))
    = [[mkFilter "monitoring-state" [""]]]
  ∧ requests (trace (EC2_Scanner.get_instances_by_state self))
    = [[mkFilter "instance-state-name" [""]]]
  ∧ EC2_Scanner.get_instances_by_monitoring self
    = EC2_Scanner.get_instances_by_monitoring (EC2_Scanner.with_fil None self)
  ∧ EC2_Scanner.get_instances_by_state self
    = EC2_Scanner.get_instances_by_state (EC2_Scanner.with_fil None self)
  ∧ requests (trace (EC2_Scanner.get_instances_by_monitoring
                       (EC2_Scanner.with_fil (Some "all") self)))
    = [[mkFilter "monitoring-state" ["enabled"; "disabled"]]]
  ∧ requests (trace (EC2_Scanner.get_instances_by_state
                       (EC2_Scanner.with_fil (Some "all") self)))
    = [[mkFilter "instance-state-name"
          ["pending"; "running"; "shutting-down"; "terminated"; "stopping";
           "stopped"]]].
Proof.
  intros Hh Hfil.
  assert (Hm : EC2_Scanner.monitoring_values (EC2_Scanner.fil self) = [""])
    by (unfold EC2_Scanner.monitoring_values; by rewrite decide_False).
  assert (Hs : EC2_Scanner.state_values (EC2_Scanner.fil self) = [""])
    by (unfold EC2_Scanner.state_values; by rewrite decide_False).
  rewrite (get_instances_by_monitoring_run self h Hh),
    (get_instances_by_state_run self h Hh).
  rewrite (get_instances_by_monitoring_run (EC2_Scanner.with_fil None self) h Hh),
    (get_instances_by_state_run (EC2_Scanner.with_fil None self) h Hh).
  rewrite (get_instances_by_monitoring_run
             (EC2_Scanner.with_fil (Some "all") self) h Hh),
    (get_instances_by_state_run (EC2_Scanner.with_fil (Some "all") self) h Hh).
  cbv zeta. rewrite Hm, Hs. cbn [EC2_Scanner.with_fil EC2_Scanner.fil].
  change (EC2_Scanner.monitoring_values None) with [""].
  change (EC2_Scanner.state_values None) with [""].
  change (EC2_Scanner.monitoring_values (Some "all"))
    with ["enabled"; "disabled"].
  change (EC2_Scanner.state_values (Some "all"))
    with ["pending"; "running"; "shutting-down"; "terminated"; "stopping";
          "stopped"].
  repeat split;
    match goal with
    | |- context [instances_filter h ?F] =>
        by destruct (instances_filter h F) as [?|[|??]]
    end.
Qed.

Lemma ec2_effective_filter_witness :
  requests (trace (EC2_Scanner.get_instances_by_monitoring
                     (sample_ec2 (Some "running"))))
  = [[mkFilter "monitoring-state" [""]]].
Proof.
  refine (proj1 (ec2_effective_filter (sample_ec2 (Some "running"))
                   sample_resource eq_refl _)).
  discriminate.
Defined.

(** C3: a query returns the sentinel ["No Instances"] if and only if the
    instance-list call answered, and answered with no instance; when it
    answers with at least one instance the query returns the two-column
    table with one row per instance. *)
Theorem ec2_no_instances_sentinel self :
  let by_monitoring :=
    EC2_Scanner.listed self
      [mkFilter "monitoring-state"
         (EC2_Scanner.monitoring_values (EC2_Scanner.fil self))] in
  let by_state :=
    EC2_Scanner.listed self
      [mkFilter "instance-state-name"
         (EC2_Scanner.state_values (EC2_Scanner.fil self))] in
  (outcome (EC2_Scanner.get_instances_by_monitoring self)
     = inr (RStr "No Instances") ↔ by_monitoring = Some (inr []))
  ∧ (outcome (EC2_Scanner.get_instances_by_state self)
     = inr (RStr "No Instances") ↔ by_state = Some (inr []))
  ∧ (∀ i l, by_monitoring = Some (inr (i :: l)) →
       outcome (EC2_Scanner.get_instances_by_monitoring self)
       = inr (RFrame (mkFrame {[ "Instance"; "Monitoring" ]}
                        (map EC2_Scanner.monitoring_row (i :: l)))))
  ∧ (∀ i l, by_state = Some (inr (i :: l)) →
       outcome (EC2_Scanner.get_instances_by_state self)
       = inr (RFrame (mkFrame {[ "Instance"; "State" ]}
                        (map EC2_Scanner.state_row (i :: l))))).
Proof.
  cbv zeta. unfold EC2_Scanner.listed.
  destruct (EC2_Scanner.ec2_resource self) as [h|] eqn:Hh.
  - rewrite (get_instances_by_monitoring_run self h Hh),
      (get_instances_by_state_run self h Hh). cbv zeta.
    repeat split.
    + destruct (instances_filter h _) as [?|[|??]]; [done..|].
      intros H; discriminate H.
    + by intros [= ->].
    + destruct (instances_filter h _) as [?|[|??]]; [done..|].
      intros H; discriminate H.
    + by intros [= ->].
    + by intros i l [= ->].
    + by intros i l [= ->].
  - destruct (get_instances_no_handle self Hh) as [-> ->].
    repeat split; intros; discriminate.
Qed.

Lemma ec2_no_instances_sentinel_witness :
  outcome (EC2_Scanner.get_instances_by_state (sample_ec2 (Some "running")))
    = inr (RStr "No Instances")
  ∧ outcome (EC2_Scanner.get_instances_by_state (sample_ec2 (Some "all")))
    = inr (RFrame (mkFrame {[ "Instance"; "State" ]}
                     (map EC2_Scanner.state_row sample_instances))).
Proof.
  split.
  - apply (proj1 (proj2 (ec2_no_instances_sentinel
                           (sample_ec2 (Some "running"))))).
    vm_compute. reflexivity.
  - apply (proj2 (proj2 (proj2 (ec2_no_instances_sentinel
                                  (sample_ec2 (Some "all")))))).
    vm_compute. reflexivity.
Defined.

(** ** The volume scanner *)

Lemma boolean_index_filter df (p : option cell → bool) (name : string) :
  boolean_index df (map p (map (λ r, r !! name) (rows df)))
  = mkFrame (columns df) (List.filter (λ r, p (r !! name)) (rows df)).
Proof.
  unfold boolean_index. f_equal.
  induction (rows df) as [|r l IH]; [done|].
  cbn. destruct (p (r !! name)); cbn; by rewrite IH.
Qed.

Lemma eq_str_spec (f : string) (c : option cell) :
  eq_str f c = true ↔ c = Some (Atom (SStr f)).
Proof.
  destruct c as [[[b|z|t]|d|l]|]; cbn; try (split; [discriminate|intros [=]]).
  rewrite String.eqb_eq. split; [by intros -> | by intros [= ->]].
Qed.

Lemma get_volumes_by_state_run self resp :
  EBS_Scanner.described self = Some (inr resp) →
  EBS_Scanner.get_volumes_by_state self
  = match EBS_Scanner.accumulated DataFrame_empty resp with
    | inl _ =>
        ([DescribeVolumes;
          Print "Something went wrong while getting ebs volumes by state."],
         inr RNone)
    | inr T =>
        if Nat.eqb (len T) 0 then ([DescribeVolumes], inr (RStr "No Volumes"))
        else if truthy (EBS_Scanner.fil self) then
          if decide ("State" ∈ columns T) then
            ([DescribeVolumes],
             inr (RFrame
                    (mkFrame (columns T)
                       (List.filter
                          (λ r, eq_str (default "" (EBS_Scanner.fil self))
                                  (r !! "State"))
                          (rows T)))))
          else
            ([DescribeVolumes;
              Print "Something went wrong while getting ebs volumes by state."],
             inr RNone)
        else ([DescribeVolumes], inr (RFrame T))
    end.
Proof.
  unfold EBS_Scanner.described, EBS_Scanner.get_volumes_by_state,
    EBS_Scanner.call_describe_volumes.
  destruct (EBS_Scanner.ec2_client self) as [h|]; [|discriminate].
  intros [= Hresp]. rewrite bind_emit, Hresp.
  cbn [lift trace outcome fst snd]. rewrite bind_pair_inr. cbv beta.
  destruct (EBS_Scanner.accumulated _ _) as [e|T]; [done|].
  rewrite bind_lift_inr.
  destruct (len T =? 0)%nat; [done|].
  destruct (truthy _); [|done].
  unfold getitem. destruct (decide _); [|done].
  rewrite bind_lift_inr. by rewrite boolean_index_filter.
Qed.

Lemma get_volumes_by_state_failed self :
  (∀ resp, EBS_Scanner.described self ≠ Some (inr resp)) →
  outcome (EBS_Scanner.get_volumes_by_state self) = inr RNone.
Proof.
  unfold EBS_Scanner.described, EBS_Scanner.get_volumes_by_state,
    EBS_Scanner.call_describe_volumes.
  destruct (EBS_Scanner.ec2_client self) as [h|]; [|done].
  intros Hno. rewrite bind_emit.
  destruct (describe_volumes h) as [e|resp]; [done|].
  by destruct (Hno resp).
Qed.

Lemma get_volumes_by_encryption_run self resp :
  EBS_Scanner.described self = Some (inr resp) →
  EBS_Scanner.get_volumes_by_encryption self
  = let volumns_df := DataFrame_of_records (Volumes resp) in
    if Nat.ltb 0 (len volumns_df) then
      if decide ("Encrypted" ∈ columns volumns_df) then
        ([DescribeVolumes],
         inr (RFrame
                (mkFrame (columns volumns_df)
                   (List.filter (λ r, eq_False (r !! "Encrypted"))
                      (rows volumns_df)))))
      else
        ([DescribeVolumes;
          Print "Something went wrong while getting ebs volumes by encryption."],
         inr RNone)
    else ([DescribeVolumes], inr (RStr "No Volumes")).
Proof.
  unfold EBS_Scanner.described, EBS_Scanner.get_volumes_by_encryption,
    EBS_Scanner.call_describe_volumes.
  destruct (EBS_Scanner.ec2_client self) as [h|]; [|discriminate].
  intros [= Hresp]. rewrite bind_emit, Hresp.
  cbn [lift trace outcome fst snd]. rewrite bind_pair_inr. cbv beta zeta.
  destruct (0 <? _)%nat; [|done].
  unfold getitem. destruct (decide _); [|done].
  rewrite bind_lift_inr. by rewrite boolean_index_filter.
Qed.

Lemma DataFrame_of_dict_single volume :
  EBS_Scanner.single_valued volume →
  DataFrame_of_dict volume = inr (mkFrame (dom volume) [EBS_Scanner.single_row volume]).
Proof.
  intros [(k & c & Hk) Hone].
  rewrite (DataFrame_of_dict_uniform volume 1); [done| |eauto].
  intros k' [?|l] m Hk' Hm; [discriminate|].
  injection Hm as <-. eauto.
Qed.

Lemma accumulate_single_valued acc volumes :
  Forall EBS_Scanner.single_valued volumes →
  EBS_Scanner.accumulate acc volumes
  = inr (mkFrame (columns acc ∪ ⋃ (dom <$> volumes))
                 (rows acc ++ map EBS_Scanner.single_row volumes)).
Proof.
  intros Hall. revert acc.
  induction Hall as [|v volumes Hv _ IH]; intros acc; cbn.
  - rewrite (right_id_L ∅ (∪)), app_nil_r. by destruct acc.
  - rewrite (DataFrame_of_dict_single v Hv), IH. cbn.
    by rewrite (assoc_L (∪)), <- app_assoc.
Qed.

(** C4, as the code has it: when the call answered with status 200 and
    the accumulated table is not empty, a scanner with no filter value or
    with the empty string returns that table unmodified, and a scanner
    with a non-empty filter value returns exactly its rows whose [State]
    cell is that string (equality of strings, so case-sensitive, and no
    check that the string names a lifecycle state).  The table has one
    row per fetched volume when every volume has one element in each of
    its list-valued attributes. *)
Theorem get_volumes_by_state_filter self resp T :
  EBS_Scanner.described self = Some (inr resp) →
  HTTPStatusCode resp = 200%Z →
  EBS_Scanner.accumulate DataFrame_empty (Volumes resp) = inr T →
  rows T ≠ [] →
  (truthy (EBS_Scanner.fil self) = false →
     outcome (EBS_Scanner.get_volumes_by_state self) = inr (RFrame T))
  ∧ (∀ f, EBS_Scanner.fil self = Some f → f ≠ "" → "State" ∈ columns T →
       outcome (EBS_Scanner.get_volumes_by_state self)
       = inr (RFrame
                (mkFrame (columns T)
                   (List.filter (λ r, eq_str f (r !! "State")) (rows T)))))
  ∧ (∀ f c, eq_str f c = true ↔ c = Some (Atom (SStr f)))
  ∧ (Forall EBS_Scanner.single_valued (Volumes resp) →
       rows T = map EBS_Scanner.single_row (Volumes resp)).
Proof.
  intros Hd Hst Hacc Hrows.
  rewrite (get_volumes_by_state_run self resp Hd).
  unfold EBS_Scanner.accumulated. rewrite Hst, Hacc. cbn [Z.eqb Pos.eqb].
  assert ((len T =? 0)%nat = false) as ->.
  { apply Nat.eqb_neq. unfold len. by destruct (rows T). }
  repeat split.
  - by intros ->.
  - intros f Hf Hne Hcol. rewrite Hf. cbn [truthy default].
    assert (String.eqb f "" = false) as -> by (by apply String.eqb_neq).
    cbn [negb]. by rewrite decide_True.
  - apply eq_str_spec.
  - apply eq_str_spec.
  - intros Hall. rewrite (accumulate_single_valued _ _ Hall) in Hacc.
    by injection Hacc as <-.
Qed.

Lemma get_volumes_by_state_filter_witness :
  outcome (EBS_Scanner.get_volumes_by_state
             (sample_ebs (Some "in-use") 200 sample_volumes))
  = inr (RFrame
           (mkFrame (columns sample_table)
              (List.filter (λ r, eq_str "in-use" (r !! "State"))
                 (rows sample_table)))).
Proof.
  refine (proj1 (proj2 (get_volumes_by_state_filter
                          (sample_ebs (Some "in-use") 200 sample_volumes)
                          (mkResponse 200 sample_volumes) sample_table
                          eq_refl eq_refl _ _))
                "in-use" eq_refl _ _).
  - vm_compute. reflexivity.
  - discriminate.
  - discriminate.
  - vm_compute. reflexivity.
Defined.

(** C4, counterexample to the claim as stated: with the filter value
    [""] the scanner returns the one fetched row, which is in state
    ["in-use"], although no row has the state [""]. *)
Lemma get_volumes_by_state_empty_filter :
  outcome (EBS_Scanner.get_volumes_by_state
             (sample_ebs (Some "") 200 [sample_volume_in_use]))
  = inr (RFrame (mkFrame (dom sample_volume_in_use)
                         [EBS_Scanner.single_row sample_volume_in_use]))
  ∧ EBS_Scanner.single_row sample_volume_in_use !! "State"
    = Some (Atom (SStr "in-use"))
  ∧ List.filter (λ r, eq_str "" (r !! "State"))
      [EBS_Scanner.single_row sample_volume_in_use] = [].
Proof. repeat split; vm_compute; reflexivity. Qed.

(** The row-per-attachment construction loses a volume that is attached
    nowhere: it contributes no row. *)
Example get_volumes_by_state_unattached :
  outcome (EBS_Scanner.get_volumes_by_state
             (sample_ebs None 200 [sample_volume_available]))
  = inr (RStr "No Volumes").
Proof. vm_compute. reflexivity. Qed.

(** String equality distinguishes case. *)
Example get_volumes_by_state_case_sensitive :
  outcome (EBS_Scanner.get_volumes_by_state
             (sample_ebs (Some "In-Use") 200 sample_volumes))
  = inr (RFrame (mkFrame (columns sample_table) [])).
Proof. vm_compute. reflexivity. Qed.

(** C5: when the call answers with volumes that carry their boolean
    [Encrypted] attribute, the query returns exactly the rows (one per
    fetched volume) whose [Encrypted] cell is the boolean [False], and the
    sentinel ["No Volumes"] when no volume was fetched. *)
Theorem get_volumes_by_encryption_unencrypted self resp :
  EBS_Scanner.described self = Some (inr resp) →
  forallb (EBS_Scanner.has_bool "Encrypted") (Volumes resp) = true →
  let fetched := DataFrame_of_records (Volumes resp) in
  rows fetched = map (fmap whole_cell) (Volumes resp)
  ∧ outcome (EBS_Scanner.get_volumes_by_encryption self)
    = inr (if decide (Volumes resp = []) then RStr "No Volumes"
           else RFrame (mkFrame (columns fetched)
                          (List.filter EBS_Scanner.unencrypted
                             (rows fetched)))).
Proof.
  intros Hd Hbool fetched. split; [done|].
  rewrite (get_volumes_by_encryption_run self resp Hd). cbv zeta.
  fold fetched. unfold fetched at 1, len. cbn [DataFrame_of_records rows].
  destruct (Volumes resp) as [|v volumes] eqn:Hv;
    cbn [map length Nat.ltb Nat.leb]; [by rewrite decide_True|].
  destruct (decide (v :: volumes = [])) as [?|_]; [discriminate|].
  cbn [forallb] in Hbool. apply andb_true_iff in Hbool as [Hv1 Hrest].
  rewrite decide_True.
  - cbn [outcome snd]. do 3 f_equal.
    apply filter_ext_in. intros r Hr.
    unfold fetched in Hr. cbn [DataFrame_of_records rows] in Hr.
    apply in_map_iff in Hr as (v' & <- & Hin).
    assert (Hb : EBS_Scanner.has_bool "Encrypted" v' = true).
    { destruct Hin as [<-|Hin]; [done|].
      by apply (proj1 (forallb_forall _ _) Hrest). }
    unfold EBS_Scanner.has_bool in Hb. unfold EBS_Scanner.unencrypted.
    rewrite lookup_fmap.
    destruct (v' !! "Encrypted") as [[[[|]|?|?]|?]|]; done.
  - unfold fetched. cbn [DataFrame_of_records columns fmap list_fmap union_list].
    apply elem_of_union_l, elem_of_dom.
    unfold EBS_Scanner.has_bool in Hv1.
    destruct (v !! "Encrypted"); [eauto|discriminate].
Qed.

Lemma get_volumes_by_encryption_unencrypted_witness :
  outcome (EBS_Scanner.get_volumes_by_encryption
             (sample_ebs None 200 sample_volumes))
  = inr (RFrame (mkFrame (columns (DataFrame_of_records sample_volumes))
                   [whole_cell <$> sample_volume_in_use])).
Proof.
  refine (eq_trans
            (proj2 (get_volumes_by_encryption_unencrypted
                      (sample_ebs None 200 sample_volumes)
                      (mkResponse 200 sample_volumes) eq_refl eq_refl))
            _).
  vm_compute. reflexivity.
Defined.

(** C6, as the code has it: the sentinel ["No Volumes"] is returned
    exactly when the call answered and the table accumulated from the
    answer has no row, which is decided before the filter is looked at;
    when the accumulated table has rows but none in the requested state,
    the result is a table without rows, not the sentinel.  The second
    part is about the rows of the accumulated table, not about the
    fetched volumes: fetched volumes need not give rows. *)
Theorem get_volumes_by_state_sentinel self :
  (outcome (EBS_Scanner.get_volumes_by_state self) = inr (RStr "No Volumes")
   ↔ ∃ resp T, EBS_Scanner.described self = Some (inr resp)
               ∧ EBS_Scanner.accumulated DataFrame_empty resp = inr T
               ∧ rows T = [])
  ∧ (∀ resp T f,
       EBS_Scanner.described self = Some (inr resp) →
       EBS_Scanner.accumulated DataFrame_empty resp = inr T →
       rows T ≠ [] →
       EBS_Scanner.fil self = Some f → f ≠ "" → "State" ∈ columns T →
       (∀ r, r ∈ rows T → r !! "State" ≠ Some (Atom (SStr f))) →
       outcome (EBS_Scanner.get_volumes_by_state self)
       = inr (RFrame (mkFrame (columns T) []))).
Proof.
  split.
  - destruct (EBS_Scanner.described self) as [[e|resp]|] eqn:Hd.
    + rewrite get_volumes_by_state_failed by (rewrite Hd; congruence).
      split; [discriminate|]. by intros (? & ? & [=] & _).
    + rewrite (get_volumes_by_state_run self resp Hd).
      destruct (EBS_Scanner.accumulated _ _) as [e|T] eqn:Hacc.
      * split; [discriminate|]. intros (? & ? & [= <-] & HT & _). congruence.
      * unfold len. destruct (rows T) as [|r l] eqn:Hrows; cbn [length Nat.eqb].
        -- split; [|done]. intros _. exists resp, T. by rewrite Hrows.
        -- split.
           ++ destruct (truthy _); [destruct (decide _)|]; discriminate.
           ++ intros (? & T' & [= <-] & HT & Hnil).
              rewrite Hacc in HT. injection HT as <-. congruence.
    + rewrite get_volumes_by_state_failed by (rewrite Hd; congruence).
      split; [discriminate|]. by intros (? & ? & [=] & _).
  - intros resp T f Hd Hacc Hrows Hf Hne Hcol Hnone.
    rewrite (get_volumes_by_state_run self resp Hd), Hacc.
    assert ((len T =? 0)%nat = false) as ->.
    { apply Nat.eqb_neq. unfold len. by destruct (rows T). }
    rewrite Hf. cbn [truthy default].
    assert (String.eqb f "" = false) as -> by (by apply String.eqb_neq).
    cbn [negb]. rewrite decide_True by done. cbn [outcome snd].
    do 3 f_equal. clear Hrows. unfold id.
    induction (rows T) as [|r l IH]; [done|]. cbn [List.filter].
    destruct (eq_str f (r !! "State")) eqn:Heq.
    + apply eq_str_spec in Heq. destruct (Hnone r); [left|done].
    + apply IH. intros r' Hr'. apply Hnone. by right.
Qed.

Lemma get_volumes_by_state_sentinel_witness :
  outcome (EBS_Scanner.get_volumes_by_state
             (sample_ebs (Some "available") 200 sample_volumes))
  = inr (RFrame (mkFrame (columns sample_table) [])).
Proof.
  refine (proj2 (get_volumes_by_state_sentinel
                   (sample_ebs (Some "available") 200 sample_volumes))
            (mkResponse 200 sample_volumes) sample_table "available"
            eq_refl _ _ eq_refl _ _ _).
  - vm_compute. reflexivity.
  - discriminate.
  - discriminate.
  - vm_compute. reflexivity.
  - intros r Hr.
    apply list_elem_of_In in Hr. cbn in Hr.
    destruct Hr as [<-|[<-|[]]]; vm_compute; discriminate.
Defined.

(** C6, counterexample to the claim as stated: a volume was fetched under
    status code 200, it is in state ["available"] and the filter
    ["in-use"] does not match it, yet the query returns the sentinel
    ["No Volumes"] and not a table without rows: the volume is attached
    nowhere, so it adds no row and the accumulated table is empty before
    the filter is looked at.  The same result comes under status code 500
    with two fetched volumes, neither in the requested state. *)
Lemma get_volumes_by_state_sentinel_fetched :
  EBS_Scanner.described
    (sample_ebs (Some "in-use") 200 [sample_volume_available])
  = Some (inr (mkResponse 200 [sample_volume_available]))
  ∧ sample_volume_available !! "State" = Some (Scalar (SStr "available"))
  ∧ outcome (EBS_Scanner.get_volumes_by_state
               (sample_ebs (Some "in-use") 200 [sample_volume_available]))
    = inr (RStr "No Volumes")
  ∧ EBS_Scanner.described (sample_ebs (Some "available") 500 sample_volumes)
    = Some (inr (mkResponse 500 sample_volumes))
  ∧ Forall (λ v, v !! "State" = Some (Scalar (SStr "in-use"))) sample_volumes
  ∧ outcome (EBS_Scanner.get_volumes_by_state
               (sample_ebs (Some "available") 500 sample_volumes))
    = inr (RStr "No Volumes").
Proof.
  repeat split; try (vm_compute; reflexivity).
  repeat constructor; vm_compute; reflexivity.
Qed.

(** C7: under a status code other than 200 no row is accumulated and the
    state query returns ["No Volumes"], whatever volumes the response
    carries; the encryption query does not look at the status code. *)
Theorem get_volumes_by_state_status self resp :
  EBS_Scanner.described self = Some (inr resp) →
  HTTPStatusCode resp ≠ 200%Z →
  EBS_Scanner.accumulated DataFrame_empty resp = inr DataFrame_empty
  ∧ EBS_Scanner.get_volumes_by_state self
    = ([DescribeVolumes], inr (RStr "No Volumes"))
  ∧ ∀ status,
      EBS_Scanner.get_volumes_by_encryption
        (EBS_Scanner.with_client
           (mkClient (inr (mkResponse status (Volumes resp)))) self)
      = EBS_Scanner.get_volumes_by_encryption self.
Proof.
  intros Hd Hst.
  assert (Hacc : EBS_Scanner.accumulated DataFrame_empty resp
                 = inr DataFrame_empty).
  { unfold EBS_Scanner.accumulated.
    by rewrite (proj2 (Z.eqb_neq _ _) Hst). }
  split; [done|]. split.
  - by rewrite (get_volumes_by_state_run self resp Hd), Hacc.
  - intros status.
    rewrite (get_volumes_by_encryption_run self resp Hd).
    by rewrite (get_volumes_by_encryption_run
                  (EBS_Scanner.with_client
                     (mkClient (inr (mkResponse status (Volumes resp)))) self)
                  (mkResponse status (Volumes resp)) eq_refl).
Qed.

Lemma get_volumes_by_state_status_witness :
  EBS_Scanner.get_volumes_by_state (sample_ebs None 500 sample_volumes)
  = ([DescribeVolumes], inr (RStr "No Volumes")).
Proof.
  refine (proj1 (proj2 (get_volumes_by_state_status
                          (sample_ebs None 500 sample_volumes)
                          (mkResponse 500 sample_volumes) eq_refl _))).
  discriminate.
Defined.

(** Rows are accumulated under status code 200 only. *)
Lemma accumulated_rows_status resp T :
  EBS_Scanner.accumulated DataFrame_empty resp = inr T →
  rows T ≠ [] → HTTPStatusCode resp = 200%Z.
Proof.
  unfold EBS_Scanner.accumulated. intros Hacc Hrows.
  destruct (Z.eqb_spec (HTTPStatusCode resp) 200); [done|].
  injection Hacc as <-. by destruct Hrows.
Qed.

(** ** The dispatcher *)

Lemma try_except_outcome {A} (body handler : Py A) (a : A) :
  outcome handler = inr a → ∃ r, outcome (try_except body handler) = inr r.
Proof.
  destruct body as [t [e|x]], handler as [t' r]; cbn; [|by eauto].
  intros ->. eauto.
Qed.

Lemma get_profiles_trace fs profile path :
  ∃ t, trace (get_profiles fs profile path) = ReadConfig path :: t.
Proof. unfold get_profiles. rewrite bind_emit. cbn. eauto. Qed.

Lemma get_profiles_outcome fs profile path :
  match fs path with
  | inl e => outcome (get_profiles fs profile path) = inl e
  | inr _ => ∃ p, outcome (get_profiles fs profile path) = inr p
  end.
Proof.
  destruct (fs path) as [e|config] eqn:Hfs.
  - unfold get_profiles. rewrite bind_emit, Hfs. done.
  - rewrite (get_profiles_run _ _ _ _ Hfs). cbn. eauto.
Qed.

(** A dispatched scan: construction, then one query whose value is
    dropped.  It starts by reading the config file, and it ends normally
    unless reading the config file raises. *)
Lemma scan_runs {S R} fs profile (construct : profiles → Py S)
    (query : S → Py R) :
  (∀ p, ∃ s, outcome (construct p) = inr s) →
  (∀ s, ∃ r, outcome (query s) = inr r) →
  let run :=
    let* scanner :=
      (let* prof := get_profiles fs profile "config" in construct prof) in
    let* _ := query scanner in ret tt in
  head (trace run) = Some (ReadConfig "config")
  ∧ ∀ config, fs "config" = inr config → outcome run = inr tt.
Proof.
  intros Hc Hq run. split.
  - unfold run. rewrite !trace_bind.
    destruct (get_profiles_trace fs profile "config") as [t ->]. done.
  - intros config Hfs. unfold run. rewrite !outcome_bind.
    pose proof (get_profiles_outcome fs profile "config") as Hp.
    rewrite Hfs in Hp. destruct Hp as [p ->].
    destruct (Hc p) as [s ->]. rewrite outcome_bind.
    by destruct (Hq s) as [r ->].
Qed.

Lemma bind_ret_returns {A B} (m : Py A) (f : A → B) :
  (∃ a, outcome m = inr a) → ∃ b, outcome (bind m (λ a, ret (f a))) = inr b.
Proof. intros [a Ha]. rewrite outcome_bind, Ha. cbn. eauto. Qed.

Lemma query_returns :
  (∀ s, ∃ r, outcome (EC2_Scanner.get_instances_by_state s) = inr r)
  ∧ (∀ s, ∃ r, outcome (EC2_Scanner.get_instances_by_monitoring s) = inr r)
  ∧ (∀ s, ∃ r, outcome (EBS_Scanner.get_volumes_by_state s) = inr r)
  ∧ (∀ s, ∃ r, outcome (EBS_Scanner.get_volumes_by_encryption s) = inr r).
Proof.
  repeat split; intros s; by apply (try_except_outcome _ _ RNone).
Qed.

Lemma main_scan w aws_service rest arguments_dict :
  aws_service ∈ ["ec2"; "ebs"] →
  parsed_options rest = Some arguments_dict →
  is_Some (arguments_dict !! "--operation") →
  is_Some (arguments_dict !! "--region") →
  is_Some (arguments_dict !! "--profile") →
  head (trace (main w (aws_service :: rest))) = Some (ReadConfig "config")
  ∧ ∀ config, fs w "config" = inr config →
      outcome (main w (aws_service :: rest)) = inr tt.
Proof.
  intros Hsvc Hparsed Ho Hr Hp. unfold parsed_options in Hparsed.
  destruct (getopt.getopt rest options long_options) as [e|parsed] eqn:Hg;
    [discriminate|].
  injection Hparsed as <-.
  destruct query_returns as (Hq1 & Hq2 & Hq3 & Hq4).
  assert (Hsvc' : aws_service = "ec2" ∨ aws_service = "ebs").
  { apply elem_of_cons in Hsvc as [->|Hsvc]; [by left|].
    apply elem_of_cons in Hsvc as [->|Hsvc]; [by right|].
    by apply elem_of_nil in Hsvc. }
  destruct Hsvc' as [-> | ->]; unfold main;
    cbn [String.eqb Ascii.eqb Bool.eqb tail];
    (rewrite bool_decide_true by (repeat constructor));
    rewrite Hg, bind_lift_inr;
    rewrite !(bool_decide_true (is_Some _)) by done; cbn [andb];
    destruct (bool_decide _).
  - apply (scan_runs (fs w) _ _ EC2_Scanner.get_instances_by_state);
      [|done]. intros p.
    apply bind_ret_returns. by apply (try_except_outcome _ _ None).
  - apply (scan_runs (fs w) _ _ EC2_Scanner.get_instances_by_monitoring);
      [|done]. intros p.
    apply bind_ret_returns. by apply (try_except_outcome _ _ None).
  - apply (scan_runs (fs w) _ _ EBS_Scanner.get_volumes_by_state);
      [|done]. intros p.
    apply bind_ret_returns. by apply (try_except_outcome _ _ None).
  - apply (scan_runs (fs w) _ _ EBS_Scanner.get_volumes_by_encryption);
      [|done]. intros p.
    apply bind_ret_returns. by apply (try_except_outcome _ _ None).
Qed.

(** [getopt] raises nothing but [GetoptError]. *)

Lemma short_has_arg_error opt shortopts e :
  getopt.short_has_arg opt shortopts = inl e → is_GetoptError e.
Proof.
  induction shortopts as [|c s IH]; cbn.
  - intros [= <-]. by eexists.
  - destruct (_ && _); [discriminate|done].
Qed.

Lemma long_has_args_error opt longopts e :
  getopt.long_has_args opt longopts = inl e → is_GetoptError e.
Proof.
  unfold getopt.long_has_args.
  destruct (List.filter _ _) as [|u others]; [intros [= <-]; by eexists|].
  repeat case_bool_decide; try discriminate.
  destruct others; [discriminate|]. intros [= <-]. by eexists.
Qed.

Lemma do_longs_error opt longopts args e :
  getopt.do_longs opt longopts args = inl e → is_GetoptError e.
Proof.
  unfold getopt.do_longs.
  destruct (getopt.split_eq opt) as [[l r]|];
    (destruct (getopt.long_has_args _ _) as [e'|[[|] o]] eqn:Hl;
     [intros [= <-]; by eapply long_has_args_error|..]);
    try discriminate; try (intros [= <-]; by eexists).
  destruct args; [|discriminate]. intros [= <-]. by eexists.
Qed.

Lemma do_shorts_error optstring shortopts args e :
  getopt.do_shorts optstring shortopts args = inl e → is_GetoptError e.
Proof.
  induction optstring as [|c s IH]; cbn; [discriminate|].
  destruct (getopt.short_has_arg c shortopts) as [e'|[|]] eqn:Hs.
  - intros [= <-]. by eapply short_has_arg_error.
  - destruct (String.eqb s ""); [|discriminate].
    destruct args; [|discriminate]. intros [= <-]. by eexists.
  - destruct (getopt.do_shorts s shortopts args) as [e'|[os took]];
      [|discriminate].
    intros [= <-]. by apply IH.
Qed.

Lemma loop_error n opts shortopts longopts args e :
  (length args ≤ n)%nat →
  getopt.loop opts shortopts longopts args = inl e → is_GetoptError e.
Proof.
  revert opts args. induction n as [|n IH]; intros opts [|arg rest] Hn;
    cbn [getopt.loop]; try discriminate; cbn in Hn; [lia|].
  destruct (_ || _); [discriminate|].
  destruct (String.eqb arg "--"); [discriminate|].
  destruct (String.prefix "--" arg).
  - destruct (getopt.do_longs _ _ _) as [e'|[o [|]]] eqn:Hd.
    + intros [= <-]. by eapply do_longs_error.
    + destruct rest as [|b rest]; [discriminate|].
      apply IH. cbn in Hn. lia.
    + apply IH. lia.
  - destruct (getopt.do_shorts _ _ _) as [e'|[os [|]]] eqn:Hd.
    + intros [= <-]. by eapply do_shorts_error.
    + destruct rest as [|b rest]; [discriminate|].
      apply IH. cbn in Hn. lia.
    + apply IH. lia.
Qed.

Lemma getopt_error args shortopts longopts e :
  getopt.getopt args shortopts longopts = inl e → is_GetoptError e.
Proof. by apply (loop_error (length args)). Qed.

(** C8: with the selector [ec2] or [ebs], when the options that follow
    do not provide all of [--operation], [--region] and [--profile], the
    dispatcher raises an argument error and has done nothing before it:
    no config file was read, no scanner was constructed, no call was
    made.  When the three are provided, with or without [--filter] and
    [--sort], it goes on to construct the scanner, and ends normally if
    the config file can be read. *)
Theorem main_requires_arguments w aws_service rest :
  aws_service ∈ ["ec2"; "ebs"] →
  let required :=
    present "--operation" rest && present "--region" rest
    && present "--profile" rest in
  (required = false →
     ∃ e, main w (aws_service :: rest) = ([], inl e)
          ∧ (e = ValueError
                   "Missing any argument: --operation,--region,--profile"
             ∨ is_GetoptError e))
  ∧ (required = true →
     head (trace (main w (aws_service :: rest))) = Some (ReadConfig "config")
     ∧ ∀ config, fs w "config" = inr config →
         outcome (main w (aws_service :: rest)) = inr tt).
Proof.
  intros Hsvc required. split; intros Hreq.
  - assert (Hsvc' : aws_service = "ec2" ∨ aws_service = "ebs").
    { apply elem_of_cons in Hsvc as [->|Hsvc]; [by left|].
      apply elem_of_cons in Hsvc as [->|Hsvc]; [by right|].
      by apply elem_of_nil in Hsvc. }
    unfold required, present, parsed_options in Hreq.
    destruct Hsvc' as [-> | ->]; unfold main;
      cbn [String.eqb Ascii.eqb Bool.eqb tail];
      (rewrite bool_decide_true by (repeat constructor));
      (destruct (getopt.getopt rest options long_options) as [e|parsed] eqn:Hg;
       [ exists e; split; [done|]; right; by eapply getopt_error
       | rewrite bind_lift_inr, Hreq; eexists; split; [done|by left] ]).
  - unfold required, present in Hreq.
    destruct (parsed_options rest) as [d|] eqn:Hparsed; [|discriminate].
    apply andb_true_iff in Hreq as [Hreq Hp].
    apply andb_true_iff in Hreq as [Ho Hr].
    apply bool_decide_eq_true in Ho, Hr, Hp.
    by eapply main_scan.
Qed.

Lemma main_requires_arguments_witness :
  main sample_world ["ebs"; "--operation"; "state"; "--region"; "us-east-1"]
  = ([], inl (ValueError
                "Missing any argument: --operation,--region,--profile"))
  ∧ outcome (main sample_world
               ["ebs"; "--operation"; "state"; "--region"; "us-east-1";
                "--profile"; "default"])
    = inr tt.
Proof.
  split.
  - destruct (proj1 (main_requires_arguments sample_world "ebs"
                       ["--operation"; "state"; "--region"; "us-east-1"]
                       ltac:(repeat constructor))
                ltac:(vm_compute; reflexivity)) as (e & He & _).
    pose proof He as He'. vm_compute in He'. injection He' as <-. exact He.
  - apply (proj2 (main_requires_arguments sample_world "ebs"
                    ["--operation"; "state"; "--region"; "us-east-1";
                     "--profile"; "default"]
                    ltac:(repeat constructor))
             ltac:(vm_compute; reflexivity)) with sample_config.
    reflexivity.
Defined.

(** C10: with no argument at all the dispatcher raises
    [Exception("Please provide arguments.")] and has done nothing before
    it: nothing was parsed, printed, constructed or called. *)
Theorem main_no_arguments w :
  main w [] = ([], inl (Exception "Please provide arguments.")).
Proof. reflexivity. Qed.




(** The dispatcher routes [ec2 --operation state] to the lifecycle-state
    query, here without filter value. *)
Example main_routes_ec2_state :
  trace (main sample_world
           ["ec2"; "--operation"; "state"; "--region"; "us-east-1";
            "--profile"; "default"])
  = [ReadConfig "config";
     Boto3Resource (CredStr "AKIA") CredNone (Some "us-east-1");
     InstancesFilter [mkFilter "instance-state-name" [""]]].
Proof. vm_compute. reflexivity. Qed.

(** ** Where a parsed option comes from *)

Lemma foldl_insert_Some {V} (l : list (string * V)) (d : gmap string V) k v :
  foldl (λ d kv, <[kv.1 := kv.2]> d) d l !! k = Some v →
  (k, v) ∈ l ∨ d !! k = Some v.
Proof.
  revert d. induction l as [|[k' v'] l IH]; intros d; cbn; [by right|].
  intros H. apply IH in H as [H|H]; [left; by right|].
  apply lookup_insert_Some in H as [[<- <-]|[_ H]]; [left; left|by right].
Qed.

Lemma prefix_char c s :
  String.prefix (String c "") s = true ↔ ∃ s', s = String c s'.
Proof.
  destruct s as [|a s]; cbn; [split; [discriminate|by intros [? [=]]]|].
  destruct (ascii_dec c a) as [->|Hne].
  - destruct s; split; eauto.
  - split; [discriminate|]. by intros [? [= <-]].
Qed.

Lemma split_eq_prefix opt l r c :
  getopt.split_eq opt = Some (l, r) →
  String.prefix (String c "") l = true → String.prefix (String c "") opt = true.
Proof.
  intros Hs Hp. apply prefix_char in Hp as [l0 ->]. apply prefix_char.
  destruct opt as [|a s]; cbn in Hs; [discriminate|].
  destruct (Ascii.eqb a "="); [discriminate|].
  destruct (getopt.split_eq s) as [[l' r']|]; [|discriminate].
  injection Hs as -> _ _. eauto.
Qed.

Lemma long_has_args_inv opt longopts b name :
  getopt.long_has_args opt longopts = inr (b, name) →
  name = opt
  ∨ ∃ u, u ∈ longopts ∧ String.prefix opt u = true
         ∧ (name = u ∨ name = getopt.drop_last u).
Proof.
  unfold getopt.long_has_args.
  destruct (List.filter _ _) as [|u others] eqn:Hf; [discriminate|].
  repeat case_bool_decide; try (intros [= <- <-]; by left).
  destruct others; [|discriminate]. intros [= <- <-]. right.
  assert (Hu : In u (List.filter (String.prefix opt) longopts))
    by (rewrite Hf; by left).
  apply filter_In in Hu as [Hin Hpre]. exists u.
  split; [by apply list_elem_of_In|]. split; [done|].
  destruct (getopt.endswith_eq u); eauto.
Qed.

Lemma long_option_first opt b name :
  getopt.long_has_args opt long_options = inr (b, name) →
  (name = "operation" → String.prefix "o" opt = true)
  ∧ (name = "region" → String.prefix "r" opt = true)
  ∧ (name = "profile" → String.prefix "p" opt = true).
Proof.
  intros H. destruct opt as [|c s]; [vm_compute in H; discriminate|].
  apply long_has_args_inv in H as [-> | (u & Hu & Hpre & Hname)].
  - repeat split; by intros [= -> ->].
  - unfold long_options in Hu.
    repeat (apply elem_of_cons in Hu as [->|Hu]);
      [..|by apply elem_of_nil in Hu];
      cbn in Hpre, Hname;
      (repeat split; intros ->; destruct Hname as [Hn|Hn];
       try discriminate Hn);
      (destruct (ascii_dec c _) as [->|];
       [apply prefix_char; eauto | discriminate Hpre]).
Qed.

Lemma do_longs_key opt args k v took :
  getopt.do_longs opt long_options args = inr ((k, v), took) →
  (k = "--operation" → String.prefix "o" opt = true)
  ∧ (k = "--region" → String.prefix "r" opt = true)
  ∧ (k = "--profile" → String.prefix "p" opt = true).
Proof.
  unfold getopt.do_longs.
  destruct (getopt.split_eq opt) as [[l r]|] eqn:Hs;
    (destruct (getopt.long_has_args _ _) as [e|[b name]] eqn:Hl;
     [discriminate|]); apply long_option_first in Hl as (Ho & Hr & Hp);
    intros Hk; destruct b, args; simplify_eq;
    repeat split; intros Heq; cbv in Heq; injection Heq as ->;
    eauto using split_eq_prefix.
Qed.

Lemma do_shorts_keys optstring shortopts args opts took :
  getopt.do_shorts optstring shortopts args = inr (opts, took) →
  ∀ k v, (k, v) ∈ opts → ∃ c, k = String "-" (String c "").
Proof.
  revert opts took. induction optstring as [|c s IH]; intros opts took; cbn.
  - intros [= <- _] k v Hin. by apply elem_of_nil in Hin.
  - destruct (getopt.short_has_arg c shortopts) as [e|[|]]; [discriminate|..].
    + destruct (String.eqb s "").
      * destruct args; [discriminate|]. intros [= <- _] k v Hin.
        apply list_elem_of_singleton in Hin as [= -> _]. eauto.
      * intros [= <- _] k v Hin.
        apply list_elem_of_singleton in Hin as [= -> _]. eauto.
    + destruct (getopt.do_shorts s shortopts args) as [e|[os t]];
        [discriminate|].
      intros [= <- _] k v Hin. apply elem_of_cons in Hin as [[= -> _]|Hin].
      * eauto.
      * by eapply IH.
Qed.

Lemma two_dash_prefix arg c :
  String.prefix "--" arg = true →
  String.prefix (String c "") (getopt.slice_from 2 arg) = true →
  String.prefix (String "-" (String "-" (String c ""))) arg = true.
Proof.
  destruct arg as [|a [|b s]]; cbn [String.prefix getopt.slice_from];
    try discriminate.
  destruct (ascii_dec _ a); [|discriminate].
  by destruct (ascii_dec _ b).
Qed.

Lemma loop_keys n opts shortopts args opts' rem :
  (length args ≤ n)%nat →
  getopt.loop opts shortopts long_options args = inr (opts', rem) →
  ∀ k v, (k, v) ∈ opts' →
         (k, v) ∈ opts ∨ ∃ arg, arg ∈ args ∧ names_option k arg.
Proof.
  revert opts args opts' rem.
  induction n as [|n IH]; intros opts [|arg rest] opts' rem Hn;
    cbn [getopt.loop]; cbn in Hn; try lia;
    try (intros [= <- _] k v Hin; by left).
  destruct (_ || _); [intros [= <- _] k v Hin; by left|].
  destruct (String.eqb arg "--"); [intros [= <- _] k v Hin; by left|].
  assert (Hnext : ∀ (new : list (string * string)) (took : bool),
    (∀ k v, (k, v) ∈ new → names_option k arg) →
    match (if took then match rest with [] => inr (opts ++ new, [])
                         | _ :: rest => getopt.loop (opts ++ new) shortopts
                                          long_options rest end
           else getopt.loop (opts ++ new) shortopts long_options rest)
    with
    | inl _ => True
    | inr (opts', _) =>
        ∀ k v, (k, v) ∈ opts' →
               (k, v) ∈ opts ∨ ∃ a, a ∈ arg :: rest ∧ names_option k a
    end).
  { intros new took Hnew.
    assert (Hin : ∀ k v, (k, v) ∈ opts ++ new →
              (k, v) ∈ opts ∨ ∃ a, a ∈ arg :: rest ∧ names_option k a).
    { intros k v [?|?]%elem_of_app; [by left|].
      right. exists arg. split; [left|eauto]. }
    destruct took, rest as [|b rest]; try done.
    - destruct (getopt.loop _ _ _ rest) as [e|[o r]] eqn:Hl; [done|].
      intros k v Hk.
      destruct (IH (opts ++ new) rest o r ltac:(cbn in Hn; lia) Hl k v Hk)
        as [?|(a & Ha & Hna)]; [eauto|].
      right. exists a. split; [by do 2 right|done].
    - destruct (getopt.loop _ _ _ (b :: rest)) as [e|[o r]] eqn:Hl; [done|].
      intros k v Hk.
      destruct (IH (opts ++ new) (b :: rest) o r
                  ltac:(cbn in Hn |- *; lia) Hl k v Hk)
        as [?|(a & Ha & Hna)]; [eauto|].
      right. exists a. split; [by right|done]. }
  destruct (String.prefix "--" arg) eqn:Hpre.
  - destruct (getopt.do_longs _ _ _) as [e|[[k0 v0] took]] eqn:Hd;
      [discriminate|].
    specialize (Hnext [(k0, v0)] took). intros Hl. rewrite Hl in Hnext.
    apply Hnext. intros k v [= -> ->]%list_elem_of_singleton.
    apply do_longs_key in Hd as (Ho & Hr & Hp).
    repeat split; intros Hk; apply two_dash_prefix; eauto.
  - destruct (getopt.do_shorts _ _ _) as [e|[os took]] eqn:Hd;
      [discriminate|].
    specialize (Hnext os took). intros Hl. rewrite Hl in Hnext.
    apply Hnext. intros k v Hk.
    destruct (do_shorts_keys _ _ _ _ _ Hd k v Hk) as [c ->].
    repeat split; discriminate.
Qed.

(** X23: an option the dispatcher finds in its dictionary was given on
    the command line, in full or abbreviated: [--operation] comes from an
    argument that starts with [--o], [--region] from one that starts with
    [--r], [--profile] from one that starts with [--p]. *)
Lemma present_option_given rest :
  (present "--operation" rest = true →
     ∃ arg, arg ∈ rest ∧ String.prefix "--o" arg = true)
  ∧ (present "--region" rest = true →
     ∃ arg, arg ∈ rest ∧ String.prefix "--r" arg = true)
  ∧ (present "--profile" rest = true →
     ∃ arg, arg ∈ rest ∧ String.prefix "--p" arg = true).
Proof.
  unfold present, parsed_options, getopt.getopt.
  destruct (getopt.loop _ _ _ _) as [e|[opts rem]] eqn:Hl;
    [repeat split; discriminate|].
  pose proof (loop_keys (length rest) _ _ _ _ _ (le_n _) Hl) as Hkeys.
  repeat split; intros [v Hv]%bool_decide_eq_true;
    apply foldl_insert_Some in Hv as [Hv|Hv];
    try (by rewrite lookup_empty in Hv);
    destruct (Hkeys _ _ Hv) as [[]%elem_of_nil|(arg & Harg & Ho & Hr & Hp)];
    exists arg; eauto.
Qed.

(** Abbreviated options are options: the dispatcher accepts them. *)
Example main_accepts_abbreviations :
  trace (main sample_world
           ["ec2"; "--op"; "state"; "--reg=us-east-1"; "--prof"; "default"])
  = [ReadConfig "config";
     Boto3Resource (CredStr "AKIA") CredNone (Some "us-east-1");
     InstancesFilter [mkFilter "instance-state-name" [""]]].
Proof. vm_compute. reflexivity. Qed.

(** * Further properties *)

(** ** The credential resolver *)

(** X1: [get_profiles] reads the config file once and does nothing else;
    it fails only when reading fails, with the reader's error:
    [pop('DEFAULT')] never raises, because the parser lists [DEFAULT]
    whether or not the file has such a section. *)
Theorem get_profiles_reads_once fs profile path :
  trace (get_profiles fs profile path) = [ReadConfig path]
  ∧ match fs path with
    | inl e => outcome (get_profiles fs profile path) = inl e
    | inr _ => ∃ p, outcome (get_profiles fs profile path) = inr p
    end.
Proof.
  split; [|apply get_profiles_outcome].
  destruct (fs path) as [e|config] eqn:Hfs.
  - unfold get_profiles. by rewrite bind_emit, Hfs.
  - by rewrite (get_profiles_run _ _ _ _ Hfs).
Qed.

Lemma get_profiles_absent_run fs path config name :
  fs path = inr config →
  name ≠ "" →
  _sections config !! name = None ∨ name = "DEFAULT" →
  get_profiles fs (Some name) path = ([ReadConfig path], inr ProfileNone).
Proof.
  intros Hfs Hname Habs. rewrite (get_profiles_run _ _ _ _ Hfs).
  cbn [truthy default]. rewrite (proj2 (String.eqb_neq _ _) Hname).
  cbn -[lookup delete dict_of_pairs items].
  destruct (decide (name = "DEFAULT")) as [->|Hne].
  - by rewrite lookup_delete_eq.
  - destruct Habs as [Habs|?]; [|done].
    rewrite lookup_delete_ne by done.
    by rewrite config_dict_section, Habs.
Qed.

(** X2: a profile name that is no section of the config store resolves
    to [None], without any error; so does the name [DEFAULT], the entry
    having been dropped. *)
Theorem get_profiles_absent fs path config name :
  fs path = inr config →
  name ≠ "" →
  _sections config !! name = None ∨ name = "DEFAULT" →
  get_profiles fs (Some name) path = ([ReadConfig path], inr ProfileNone).
Proof. apply get_profiles_absent_run. Qed.

Lemma get_profiles_absent_witness :
  get_profiles sample_fs (Some "production") "config"
  = ([ReadConfig "config"], inr ProfileNone).
Proof.
  apply (get_profiles_absent sample_fs "config" sample_config "production"
           eq_refl); [discriminate|left; vm_compute; reflexivity].
Defined.

(** X3: resolving the name of a section yields, key by key, the value
    written in the section when there is one and the value of [DEFAULT]
    otherwise; a key of neither is absent. *)
Theorem get_profiles_precedence fs path config name own :
  fs path = inr config →
  name ≠ "" → name ≠ "DEFAULT" →
  _sections config !! name = Some own →
  ∃ d, outcome (get_profiles fs (Some name) path) = inr (ProfileSection d)
       ∧ ∀ key, d !! key = match own !! key with
                            | Some v => Some v
                            | None => _defaults config !! key
                            end.
Proof.
  intros Hfs Hname Hne Hown. exists (own ∪ _defaults config). split.
  - rewrite (get_profiles_run _ _ _ _ Hfs).
    cbn [truthy default]. rewrite (proj2 (String.eqb_neq _ _) Hname).
    unfold outcome. cbn -[lookup delete dict_of_pairs items].
    rewrite lookup_delete_ne by done.
    by rewrite config_dict_section, Hown.
  - intros key. rewrite lookup_union. by destruct (own !! key), (_ !! key).
Qed.

Lemma get_profiles_precedence_witness :
  ∃ d, outcome (get_profiles sample_fs (Some "default") "config")
       = inr (ProfileSection d)
       ∧ ∀ key, d !! key
                = match ({[ "aws_access_key_id" := "AKIA" ]}
                           : gmap string string) !! key with
                  | Some v => Some v
                  | None => _defaults sample_config !! key
                  end.
Proof.
  apply (get_profiles_precedence sample_fs "config" sample_config "default"
           {[ "aws_access_key_id" := "AKIA" ]} eq_refl);
    [discriminate|discriminate|vm_compute; reflexivity].
Defined.

(** X4: without a profile name, and also with the empty string as name,
    the resolver returns the full mapping: one entry per section of the
    store except [DEFAULT], each with the options of [DEFAULT] added. *)
Theorem get_profiles_all fs path config profile :
  fs path = inr config →
  truthy profile = false →
  ∃ all, outcome (get_profiles fs profile path) = inr (ProfileAll all)
         ∧ dom all = dom (_sections config) ∖ {["DEFAULT"]}
         ∧ ∀ name, name ≠ "DEFAULT" →
             all !! name
             = (λ own, own ∪ _defaults config) <$> _sections config !! name.
Proof.
  intros Hfs Hp. eexists. split; [|split].
  - rewrite (get_profiles_run _ _ _ _ Hfs). unfold outcome.
    cbn -[lookup delete dict_of_pairs items]. by rewrite Hp.
  - apply set_eq. intros k. rewrite elem_of_dom, elem_of_difference.
    rewrite elem_of_dom, not_elem_of_singleton.
    destruct (decide (k = "DEFAULT")) as [->|Hne].
    + rewrite lookup_delete_eq.
      split; [intros [? H]; discriminate H|by intros [_ []]].
    + rewrite lookup_delete_ne, config_dict_section by done.
      rewrite fmap_is_Some. split; [by intros ?|by intros [? _]].
  - intros name Hne.
    by rewrite lookup_delete_ne, config_dict_section by done.
Qed.

Lemma get_profiles_all_witness :
  ∃ all, outcome (get_profiles sample_fs (Some "") "config")
         = inr (ProfileAll all)
         ∧ dom all = dom (_sections sample_config) ∖ {["DEFAULT"]}
         ∧ ∀ name, name ≠ "DEFAULT" →
             all !! name
             = (λ own, own ∪ _defaults sample_config)
                 <$> _sections sample_config !! name.
Proof.
  exact (get_profiles_all sample_fs "config" sample_config (Some "")
           eq_refl eq_refl).
Defined.

(** ** Construction of the scanners *)

Lemma bind_ret_l {A B} (a : A) (k : A → Py B) : bind (ret a) k = k a.
Proof. unfold bind, ret. by destruct (k a). Qed.

Lemma get_profiles_section_run fs path config name own :
  fs path = inr config →
  name ≠ "" → name ≠ "DEFAULT" →
  _sections config !! name = Some own →
  get_profiles fs (Some name) path
  = ([ReadConfig path], inr (ProfileSection (own ∪ _defaults config))).
Proof.
  intros Hfs Hname Hne Hown. rewrite (get_profiles_run _ _ _ _ Hfs).
  cbn [truthy default]. rewrite (proj2 (String.eqb_neq _ _) Hname).
  cbn -[lookup delete dict_of_pairs items].
  rewrite lookup_delete_ne by done.
  by rewrite config_dict_section, Hown.
Qed.

(** X5: constructing a scanner for a profile the config store does not
    have fails inside the guarded block, before any SDK handle is asked
    for: the failure is printed, the constructor returns normally, and the
    scanner is left without a handle. *)
Theorem init_absent_profile w config name region operation fil sort :
  fs w "config" = inr config →
  name ≠ "" →
  _sections config !! name = None →
  EC2_Scanner.__init__ w (Some name) region operation fil sort
  = ([ReadConfig "config";
      Print "Something went wrong while connecting to EC2"],
     inr (EC2_Scanner.mk (Some name) region operation fil sort None))
  ∧ EBS_Scanner.__init__ w (Some name) region operation fil sort
    = ([ReadConfig "config";
        Print "Something went wrong while connecting to EBS"],
       inr (EBS_Scanner.mk (Some name) region operation fil sort None)).
Proof.
  intros Hfs Hname Habs.
  unfold EC2_Scanner.__init__, EBS_Scanner.__init__.
  by rewrite (get_profiles_absent_run _ _ _ _ Hfs Hname (or_introl Habs)).
Qed.

Lemma init_absent_profile_witness :
  EC2_Scanner.__init__ sample_world (Some "production") (Some "us-east-1")
    (Some "state") None None
  = ([ReadConfig "config";
      Print "Something went wrong while connecting to EC2"],
     inr (EC2_Scanner.mk (Some "production") (Some "us-east-1")
            (Some "state") None None None)).
Proof.
  refine (proj1 (init_absent_profile sample_world sample_config "production"
                   (Some "us-east-1") (Some "state") None None eq_refl _ _)).
  - discriminate.
  - vm_compute. reflexivity.
Defined.

(** X6: constructing a scanner for a section of the config store asks
    the SDK for one handle, with the section's [aws_access_key_id] and
    [aws_secret_access_key] (options of [DEFAULT] included, [None] for a
    missing one) and the region as given.  The handle is stored; when the
    SDK raises instead, the failure is printed and the scanner is left
    without a handle.  The five arguments are stored as given. *)
Theorem init_section w config name own region operation fil sort :
  fs w "config" = inr config →
  name ≠ "" → name ≠ "DEFAULT" →
  _sections config !! name = Some own →
  let d := own ∪ _defaults config in
  let key := cred_of (d !! "aws_access_key_id") in
  let secret := cred_of (d !! "aws_secret_access_key") in
  EC2_Scanner.__init__ w (Some name) region operation fil sort
  = match boto3_resource w key secret region with
    | inr h =>
        ([ReadConfig "config"; Boto3Resource key secret region],
         inr (EC2_Scanner.mk (Some name) region operation fil sort (Some h)))
    | inl _ =>
        ([ReadConfig "config"; Boto3Resource key secret region;
          Print "Something went wrong while connecting to EC2"],
         inr (EC2_Scanner.mk (Some name) region operation fil sort None))
    end
  ∧ EBS_Scanner.__init__ w (Some name) region operation fil sort
    = match boto3_client w key secret region with
      | inr h =>
          ([ReadConfig "config"; Boto3Client key secret region],
           inr (EBS_Scanner.mk (Some name) region operation fil sort
                  (Some h)))
      | inl _ =>
          ([ReadConfig "config"; Boto3Client key secret region;
            Print "Something went wrong while connecting to EBS"],
           inr (EBS_Scanner.mk (Some name) region operation fil sort None))
      end.
Proof.
  intros Hfs Hname Hne Hown d key secret.
  unfold EC2_Scanner.__init__, EBS_Scanner.__init__.
  rewrite (get_profiles_section_run _ _ _ _ _ Hfs Hname Hne Hown).
  rewrite !bind_pair_inr. cbv beta. fold d.
  change (profile_get (ProfileSection d) "aws_access_key_id")
    with (ret key).
  change (profile_get (ProfileSection d) "aws_secret_access_key")
    with (ret secret).
  clearbody key secret. rewrite !bind_ret_l, !bind_emit.
  split.
  - by destruct (boto3_resource w key secret region).
  - by destruct (boto3_client w key secret region).
Qed.

Lemma init_section_witness :
  EBS_Scanner.__init__ sample_world (Some "default") (Some "us-east-1")
    (Some "state") None None
  = ([ReadConfig "config";
      Boto3Client (CredStr "AKIA") CredNone (Some "us-east-1")],
     inr (sample_ebs None 200 [sample_volume_in_use])).
Proof.
  refine (eq_trans
            (proj2 (init_section sample_world sample_config "default"
                      {[ "aws_access_key_id" := "AKIA" ]}
                      (Some "us-east-1") (Some "state") None None
                      eq_refl _ _ _)) _).
  - discriminate.
  - discriminate.
  - vm_compute. reflexivity.
  - vm_compute. reflexivity.
Defined.

(** X7: an error of reading the config file is not caught: it leaves
    the constructor, and no SDK handle has been asked for. *)
Theorem init_config_error w e profile region operation fil sort :
  fs w "config" = inl e →
  EC2_Scanner.__init__ w profile region operation fil sort
  = ([ReadConfig "config"], inl e)
  ∧ EBS_Scanner.__init__ w profile region operation fil sort
    = ([ReadConfig "config"], inl e).
Proof.
  intros Hfs. unfold EC2_Scanner.__init__, EBS_Scanner.__init__, get_profiles.
  by rewrite !bind_emit, Hfs.
Qed.

Lemma init_config_error_witness :
  EC2_Scanner.__init__
    (mkWorld (λ _, inl (LibraryError "MissingSectionHeaderError"))
       (boto3_resource sample_world) (boto3_client sample_world))
    (Some "default") (Some "us-east-1") (Some "state") None None
  = ([ReadConfig "config"], inl (LibraryError "MissingSectionHeaderError")).
Proof.
  exact (proj1 (init_config_error
                  (mkWorld (λ _, inl (LibraryError "MissingSectionHeaderError"))
                     (boto3_resource sample_world)
                     (boto3_client sample_world))
                  (LibraryError "MissingSectionHeaderError")
                  (Some "default") (Some "us-east-1") (Some "state")
                  None None eq_refl)).
Defined.

(** ** The queries of a scanner that cannot answer *)

(** X8: a scanner left without a handle by its constructor answers
    every query by printing the query's diagnostic and returning [None];
    no call to the service is attempted. *)
Theorem query_without_handle :
  (∀ self, EC2_Scanner.ec2_resource self = None →
     EC2_Scanner.get_instances_by_monitoring self
     = ([Print "Something went wrong while getting ec2 instances by monitoring "],
        inr RNone)
     ∧ EC2_Scanner.get_instances_by_state self
       = ([Print "Something went wrong while getting ec2 instances by state."],
          inr RNone))
  ∧ (∀ self, EBS_Scanner.ec2_client self = None →
       EBS_Scanner.get_volumes_by_state self
       = ([Print "Something went wrong while getting ebs volumes by state."],
          inr RNone)
       ∧ EBS_Scanner.get_volumes_by_encryption self
         = ([Print "Something went wrong while getting ebs volumes by encryption."],
            inr RNone)).
Proof.
  split; intros self Hh.
  - unfold EC2_Scanner.get_instances_by_monitoring,
      EC2_Scanner.get_instances_by_state, EC2_Scanner.filter_instances.
    by rewrite Hh.
  - unfold EBS_Scanner.get_volumes_by_state,
      EBS_Scanner.get_volumes_by_encryption,
      EBS_Scanner.call_describe_volumes.
    by rewrite Hh.
Qed.

Lemma query_without_handle_witness :
  EBS_Scanner.get_volumes_by_state
    (EBS_Scanner.mk (Some "production") (Some "us-east-1") (Some "state")
       None None None)
  = ([Print "Something went wrong while getting ebs volumes by state."],
     inr RNone).
Proof.
  exact (proj1 (proj2 query_without_handle
                  (EBS_Scanner.mk (Some "production") (Some "us-east-1")
                     (Some "state") None None None) eq_refl)).
Defined.

(** X9: when the call to the service raises, whatever the error, the
    query has made that one call, prints its diagnostic and returns
    [None]: the error does not leave the query, and the caller cannot tell
    it from any other failure. *)
Theorem query_call_raises :
  (∀ self h, EC2_Scanner.ec2_resource self = Some h →
     (∀ F e, instances_filter h F = inl e →
        F = [mkFilter "monitoring-state"
               (EC2_Scanner.monitoring_values (EC2_Scanner.fil self))] →
        EC2_Scanner.get_instances_by_monitoring self
        = ([InstancesFilter F;
            Print "Something went wrong while getting ec2 instances by monitoring "],
           inr RNone))
     ∧ (∀ F e, instances_filter h F = inl e →
          F = [mkFilter "instance-state-name"
                 (EC2_Scanner.state_values (EC2_Scanner.fil self))] →
          EC2_Scanner.get_instances_by_state self
          = ([InstancesFilter F;
              Print "Something went wrong while getting ec2 instances by state."],
             inr RNone)))
  ∧ (∀ self e, EBS_Scanner.described self = Some (inl e) →
       EBS_Scanner.get_volumes_by_state self
       = ([DescribeVolumes;
           Print "Something went wrong while getting ebs volumes by state."],
          inr RNone)
       ∧ EBS_Scanner.get_volumes_by_encryption self
         = ([DescribeVolumes;
             Print "Something went wrong while getting ebs volumes by encryption."],
            inr RNone)).
Proof.
  split.
  - intros self h Hh. split; intros F e He ->.
    + rewrite (get_instances_by_monitoring_run self h Hh). cbv zeta.
      by rewrite He.
    + rewrite (get_instances_by_state_run self h Hh). cbv zeta.
      by rewrite He.
  - intros self e. unfold EBS_Scanner.described,
      EBS_Scanner.get_volumes_by_state, EBS_Scanner.get_volumes_by_encryption,
      EBS_Scanner.call_describe_volumes.
    destruct (EBS_Scanner.ec2_client self) as [h|]; [|discriminate].
    intros [= He]. by rewrite !bind_emit, He.
Qed.

Lemma query_call_raises_witness :
  EBS_Scanner.get_volumes_by_encryption
    (EBS_Scanner.mk (Some "default") (Some "us-east-1") (Some "encryption")
       None None (Some (mkClient (inl (LibraryError "EndpointConnectionError")))))
  = ([DescribeVolumes;
      Print "Something went wrong while getting ebs volumes by encryption."],
     inr RNone).
Proof.
  exact (proj2 (proj2 query_call_raises
                  (EBS_Scanner.mk (Some "default") (Some "us-east-1")
                     (Some "encryption") None None
                     (Some (mkClient
                              (inl (LibraryError "EndpointConnectionError")))))
                  (LibraryError "EndpointConnectionError") eq_refl)).
Defined.

(** ** The volume scanner on volumes of other shapes *)

Lemma DataFrame_of_dict_columns volume df :
  DataFrame_of_dict volume = inr df → columns df = dom volume.
Proof.
  unfold DataFrame_of_dict. destruct (decide _) as [->|_].
  - intros [= <-]. by rewrite dom_empty_L.
  - destruct (omap _ _) as [|n lengths]; [discriminate|].
    destruct (forallb _ _); [|discriminate]. by intros [= <-].
Qed.

Lemma accumulate_columns acc volumes T :
  EBS_Scanner.accumulate acc volumes = inr T →
  columns T = columns acc ∪ ⋃ (dom <$> volumes).
Proof.
  revert acc. induction volumes as [|v volumes IH]; intros acc; cbn.
  - intros [= <-]. by rewrite (right_id_L ∅ (∪)).
  - destruct (DataFrame_of_dict v) as [e|df] eqn:Hv; [discriminate|].
    intros Hacc. rewrite (IH _ Hacc). cbn.
    by rewrite (DataFrame_of_dict_columns _ _ Hv), (assoc_L (∪)).
Qed.

Lemma DataFrame_of_dict_empty_valued volume :
  empty_valued volume →
  DataFrame_of_dict volume = inr (mkFrame (dom volume) []).
Proof.
  intros [[k Hk] Hall].
  rewrite (DataFrame_of_dict_uniform volume 0); [done| |eauto].
  intros k' [?|l] m Hk' Hm; [discriminate|].
  injection Hm as <-. by rewrite (Hall _ _ Hk').
Qed.

Lemma accumulate_empty_valued acc volumes :
  Forall empty_valued volumes →
  EBS_Scanner.accumulate acc volumes
  = inr (mkFrame (columns acc ∪ ⋃ (dom <$> volumes)) (rows acc)).
Proof.
  intros Hall. revert acc.
  induction Hall as [|v volumes Hv _ IH]; intros acc; cbn.
  - rewrite (right_id_L ∅ (∪)). by destruct acc.
  - rewrite (DataFrame_of_dict_empty_valued v Hv), IH. cbn.
    by rewrite (assoc_L (∪)), app_nil_r.
Qed.

(** X11: the state query never reports a volume whose list-valued
    attributes are all empty, such as a volume attached nowhere: the
    table is built with one row per list element, so such a volume adds
    no row, and a response made of such volumes gives ["No Volumes"]. *)
Theorem state_query_empty_valued self resp :
  EBS_Scanner.described self = Some (inr resp) →
  Forall empty_valued (Volumes resp) →
  EBS_Scanner.get_volumes_by_state self
  = ([DescribeVolumes], inr (RStr "No Volumes")).
Proof.
  intros Hd Hall. rewrite (get_volumes_by_state_run self resp Hd).
  unfold EBS_Scanner.accumulated.
  destruct (HTTPStatusCode resp =? 200)%Z; [|done].
  by rewrite (accumulate_empty_valued _ _ Hall).
Qed.

Lemma state_query_empty_valued_witness :
  EBS_Scanner.get_volumes_by_state
    (sample_ebs (Some "available") 200 [sample_volume_available])
  = ([DescribeVolumes], inr (RStr "No Volumes")).
Proof.
  apply (state_query_empty_valued
           (sample_ebs (Some "available") 200 [sample_volume_available])
           (mkResponse 200 [sample_volume_available]) eq_refl).
  constructor; [|constructor]. split.
  - exists "Attachments". vm_compute. reflexivity.
  - intros k l Hk. unfold sample_volume_available in Hk.
    repeat (apply lookup_insert_Some in Hk as [[_ [=]]|[_ Hk]]).
    by apply lookup_singleton_Some in Hk as [_ [= <-]].
Defined.

Lemma DataFrame_of_dict_ragged volume :
  ragged volume → ∃ e, DataFrame_of_dict volume = inl e.
Proof.
  intros (k1 & k2 & l1 & l2 & H1 & H2 & Hne). unfold DataFrame_of_dict.
  rewrite decide_False by (intros ->; by rewrite lookup_empty in H1).
  set (L := omap _ _).
  assert (Hin : ∀ k l, volume !! k = Some (Array l) → length l ∈ L).
  { intros k l Hk. apply list_elem_of_omap. exists (k, Array l).
    split; [by apply elem_of_map_to_list | done]. }
  pose proof (Hin _ _ H1) as Hin1. pose proof (Hin _ _ H2) as Hin2.
  destruct L as [|n lengths]; [by eexists|].
  destruct (forallb (Nat.eqb n) lengths) eqn:Hall; [|by eexists].
  exfalso. apply Hne.
  assert (Hn : ∀ m, m ∈ n :: lengths → m = n).
  { intros m [->|Hm]%elem_of_cons; [done|].
    apply list_elem_of_In in Hm.
    symmetry. by apply Nat.eqb_eq, (proj1 (forallb_forall _ _) Hall). }
  by rewrite (Hn _ Hin1), (Hn _ Hin2).
Qed.

Lemma accumulate_ragged acc volumes :
  Exists ragged volumes → ∃ e, EBS_Scanner.accumulate acc volumes = inl e.
Proof.
  intros Hex. revert acc.
  induction Hex as [v volumes Hv|v volumes _ IH]; intros acc; cbn.
  - destruct (DataFrame_of_dict_ragged v Hv) as [e ->]. eauto.
  - destruct (DataFrame_of_dict v); eauto.
Qed.

(** X12: one volume whose list-valued attributes differ in length (one
    attachment and two tags, say) makes the whole state query fail under
    status code 200: the table cannot be built, the diagnostic is printed
    and [None] is returned, whatever the other volumes are. *)
Theorem state_query_ragged self resp :
  EBS_Scanner.described self = Some (inr resp) →
  HTTPStatusCode resp = 200%Z →
  Exists ragged (Volumes resp) →
  EBS_Scanner.get_volumes_by_state self
  = ([DescribeVolumes;
      Print "Something went wrong while getting ebs volumes by state."],
     inr RNone).
Proof.
  intros Hd Hst Hex. rewrite (get_volumes_by_state_run self resp Hd).
  unfold EBS_Scanner.accumulated. rewrite Hst. cbn [Z.eqb Pos.eqb].
  by destruct (accumulate_ragged DataFrame_empty _ Hex) as [e ->].
Qed.

Lemma state_query_ragged_witness :
  EBS_Scanner.get_volumes_by_state
    (sample_ebs None 200 [sample_volume_encrypted; sample_volume_tagged])
  = ([DescribeVolumes;
      Print "Something went wrong while getting ebs volumes by state."],
     inr RNone).
Proof.
  apply (state_query_ragged
           (sample_ebs None 200 [sample_volume_encrypted; sample_volume_tagged])
           (mkResponse 200 [sample_volume_encrypted; sample_volume_tagged])
           eq_refl eq_refl).
  right. left. eexists "Attachments", "Tags", _, _.
  split; [vm_compute; reflexivity|]. split; [vm_compute; reflexivity|].
  discriminate.
Defined.

(** X13: a query that selects on a column fails when no fetched volume
    carries that attribute: with a non-empty filter value the state query
    needs [State], and the encryption query needs [Encrypted]; the
    [KeyError] is caught, the diagnostic printed and [None] returned.
    Without filter value the state query needs no column. *)
Theorem query_missing_column self resp :
  EBS_Scanner.described self = Some (inr resp) →
  (∀ T, HTTPStatusCode resp = 200%Z →
        EBS_Scanner.accumulate DataFrame_empty (Volumes resp) = inr T →
        rows T ≠ [] →
        truthy (EBS_Scanner.fil self) = true →
        (∀ v, v ∈ Volumes resp → v !! "State" = None) →
        EBS_Scanner.get_volumes_by_state self
        = ([DescribeVolumes;
            Print "Something went wrong while getting ebs volumes by state."],
           inr RNone))
  ∧ (Volumes resp ≠ [] →
     (∀ v, v ∈ Volumes resp → v !! "Encrypted" = None) →
     EBS_Scanner.get_volumes_by_encryption self
     = ([DescribeVolumes;
         Print "Something went wrong while getting ebs volumes by encryption."],
        inr RNone)).
Proof.
  intros Hd.
  assert (Hcol : ∀ key (volumes : list (gmap string attribute)),
             (∀ v, v ∈ volumes → v !! key = None) →
             key ∉ ⋃ (dom <$> volumes)).
  { intros key volumes Hnone Hin.
    apply elem_of_union_list in Hin as (X & HX & Hk).
    apply list_elem_of_fmap in HX as (v & -> & Hv).
    apply elem_of_dom in Hk as [a Ha]. rewrite (Hnone v Hv) in Ha.
    discriminate. }
  split.
  - intros T Hst Hacc Hrows Hfil Hnone.
    rewrite (get_volumes_by_state_run self resp Hd).
    unfold EBS_Scanner.accumulated. rewrite Hst, Hacc. cbn [Z.eqb Pos.eqb].
    assert ((len T =? 0)%nat = false) as ->.
    { apply Nat.eqb_neq. unfold len. by destruct (rows T). }
    rewrite Hfil. rewrite decide_False; [done|].
    rewrite (accumulate_columns _ _ _ Hacc). cbn [columns DataFrame_empty].
    rewrite (left_id_L ∅ (∪)). by apply Hcol.
  - intros Hne Hnone.
    rewrite (get_volumes_by_encryption_run self resp Hd). cbv zeta.
    unfold len. cbn [DataFrame_of_records rows columns].
    destruct (Volumes resp) as [|v volumes] eqn:Hv; [done|].
    cbn [map length Nat.ltb Nat.leb].
    rewrite decide_False; [done|]. by apply Hcol.
Qed.

Lemma query_missing_column_witness :
  EBS_Scanner.get_volumes_by_encryption
    (sample_ebs None 200 [{[ "VolumeId" := Scalar (SStr "vol-9") ]}])
  = ([DescribeVolumes;
      Print "Something went wrong while getting ebs volumes by encryption."],
     inr RNone).
Proof.
  apply (proj2 (query_missing_column
                  (sample_ebs None 200
                     [{[ "VolumeId" := Scalar (SStr "vol-9") ]}])
                  (mkResponse 200 [{[ "VolumeId" := Scalar (SStr "vol-9") ]}])
                  eq_refl)).
  - discriminate.
  - intros v [->|[]%elem_of_nil]%elem_of_cons. vm_compute. reflexivity.
Defined.

Lemma filter_none {A} (f : A → bool) (l : list A) :
  (∀ x, In x l → f x = false) → List.filter f l = [].
Proof.
  induction l as [|x l IH]; intros Hall; [done|].
  cbn. rewrite (Hall x) by (by left). apply IH. intros y Hy. apply Hall.
  by right.
Qed.

(** X14: the encryption query returns ["No Volumes"] exactly when the
    call answered with no volume, whatever the status code; when every
    fetched volume is encrypted it returns a table without rows, not the
    sentinel. *)
Theorem encryption_query_sentinel self :
  (outcome (EBS_Scanner.get_volumes_by_encryption self)
     = inr (RStr "No Volumes")
   ↔ ∃ resp, EBS_Scanner.described self = Some (inr resp)
             ∧ Volumes resp = [])
  ∧ (∀ resp,
       EBS_Scanner.described self = Some (inr resp) →
       Volumes resp ≠ [] →
       (∀ v, v ∈ Volumes resp →
             v !! "Encrypted" = Some (Scalar (SBool true))) →
       outcome (EBS_Scanner.get_volumes_by_encryption self)
       = inr (RFrame (mkFrame (⋃ (dom <$> Volumes resp)) []))).
Proof.
  split.
  - destruct (EBS_Scanner.described self) as [[e|resp]|] eqn:Hd.
    + split; [|by intros (? & [=] & _)].
      unfold EBS_Scanner.described in Hd.
      unfold EBS_Scanner.get_volumes_by_encryption,
        EBS_Scanner.call_describe_volumes.
      destruct (EBS_Scanner.ec2_client self); [|discriminate].
      injection Hd as Hd. rewrite bind_emit, Hd. discriminate.
    + rewrite (get_volumes_by_encryption_run self resp Hd). cbv zeta.
      unfold len. cbn [DataFrame_of_records rows].
      destruct (Volumes resp) as [|v volumes] eqn:Hv;
        cbn [map length Nat.ltb Nat.leb].
      * split; [|done]. intros _. exists resp. by rewrite Hv.
      * split; [by destruct (decide _)|].
        intros (resp' & [= <-] & Hnil). congruence.
    + unfold EBS_Scanner.described in Hd.
      unfold EBS_Scanner.get_volumes_by_encryption,
        EBS_Scanner.call_describe_volumes.
      destruct (EBS_Scanner.ec2_client self); [discriminate|].
      split; [discriminate|]. by intros (? & [=] & _).
  - intros resp Hd Hne Henc.
    rewrite (get_volumes_by_encryption_run self resp Hd). cbv zeta.
    unfold len. cbn [DataFrame_of_records rows columns].
    destruct (Volumes resp) as [|v volumes] eqn:Hv; [done|].
    cbn [length Nat.ltb Nat.leb map].
    rewrite decide_True.
    + cbn [outcome snd]. do 3 f_equal.
      apply filter_none. intros r Hr.
      change ((whole_cell <$> v) :: map (fmap whole_cell) volumes)
        with (map (fmap whole_cell) (v :: volumes)) in Hr.
      apply in_map_iff in Hr as (v' & <- & Hin).
      rewrite lookup_fmap, (Henc v'); [reflexivity|].
      by apply list_elem_of_In.
    + cbn [fmap list_fmap union_list].
      apply elem_of_union_l, elem_of_dom. rewrite (Henc v); [eauto|left].
Qed.

Lemma encryption_query_sentinel_witness :
  outcome (EBS_Scanner.get_volumes_by_encryption
             (sample_ebs None 200 [sample_volume_encrypted]))
  = inr (RFrame (mkFrame (⋃ (dom <$> [sample_volume_encrypted])) [])).
Proof.
  apply (proj2 (encryption_query_sentinel
                  (sample_ebs None 200 [sample_volume_encrypted]))
           (mkResponse 200 [sample_volume_encrypted]) eq_refl).
  - discriminate.
  - intros v [->|[]%elem_of_nil]%elem_of_cons. vm_compute. reflexivity.
Defined.

(** ** The dispatcher on other command lines *)

(** X15: a first argument that is neither [--help] nor one of the two
    selectors is refused with [ValueError('Missing ec2 or ebs.')] before
    anything is parsed or done, whatever follows it. *)
Theorem main_invalid_selector w aws_service rest :
  aws_service ≠ "--help" →
  aws_service ∉ ["ec2"; "ebs"] →
  main w (aws_service :: rest) = ([], inl (ValueError "Missing ec2 or ebs.")).
Proof.
  intros Hhelp Hsel. unfold main.
  rewrite (proj2 (String.eqb_neq _ _) Hhelp).
  by rewrite bool_decide_false.
Qed.

Lemma main_invalid_selector_witness :
  main sample_world
    ["EC2"; "--operation"; "state"; "--region"; "us-east-1";
     "--profile"; "default"]
  = ([], inl (ValueError "Missing ec2 or ebs.")).
Proof.
  apply main_invalid_selector; [discriminate|].
  intros Hin. repeat (apply elem_of_cons in Hin as [Hin|Hin];
                      [discriminate Hin|]).
  by apply elem_of_nil in Hin.
Defined.

Lemma print_help_run arguments :
  Forall is_Help (trace (print_help arguments))
  ∧ outcome (print_help arguments) = inr tt.
Proof.
  induction arguments as [|[a v] l [IHt IHo]]; cbn [print_help];
    [by split; [constructor|]|].
  rewrite trace_bind, outcome_bind.
  assert (Hstep :
    ∀ m : Py unit,
      m = (if bool_decide (a ∈ ["-h"; "--help"])
           then if String.eqb v "ec2" then emit (Help "EC2_Scanner")
                else if String.eqb v "ebs" then emit (Help "EBS_Scanner")
                else let* _ := emit (Help "EC2_Scanner") in
                     emit (Help "EBS_Scanner")
           else ret tt) →
      Forall is_Help (trace m) ∧ outcome m = inr tt).
  { intros m ->. destruct (bool_decide _); [|by split; [constructor|]].
    destruct (String.eqb v "ec2");
      [by split; [repeat constructor; by eexists|]|].
    destruct (String.eqb v "ebs");
      by split; [repeat constructor; by eexists|]. }
  destruct (Hstep _ eq_refl) as [Ht Ho]. rewrite Ho.
  split; [by apply Forall_app|done].
Qed.

(** X16: an invocation whose first argument is [--help] never scans: it
    reads no config file, constructs no scanner and calls no service; all
    it ever does is show help texts.  [--help] alone or with [both] shows
    the two classes, with [ec2] or [ebs] the one class, and another second
    argument is refused with a [ValueError] before anything is shown. *)
Theorem main_help w rest :
  Forall is_Help (trace (main w ("--help" :: rest)))
  ∧ main w ["--help"] = ([Help "EC2_Scanner"; Help "EBS_Scanner"], inr tt)
  ∧ main w ["--help"; "both"]
    = ([Help "EC2_Scanner"; Help "EBS_Scanner"], inr tt)
  ∧ main w ["--help"; "ec2"] = ([Help "EC2_Scanner"], inr tt)
  ∧ main w ["--help"; "ebs"] = ([Help "EBS_Scanner"], inr tt)
  ∧ ∀ second rest',
      rest = second :: rest' → second ∉ ["ec2"; "ebs"; "both"] →
      main w ("--help" :: rest)
      = ([], inl (ValueError
                    "Valid arguments --help ec2 | --help ebs | --help")).
Proof.
  split; [|repeat split; try (vm_compute; reflexivity)].
  - unfold main. cbn [String.eqb Ascii.eqb Bool.eqb].
    destruct (bool_decide _); [|constructor].
    rewrite trace_bind. cbn [lift trace outcome fst snd app].
    destruct (getopt.getopt _ _ _) as [e|parsed]; [constructor|].
    apply print_help_run.
  - intros second rest' -> Hsel. unfold main.
    cbn [String.eqb Ascii.eqb Bool.eqb length Nat.eqb lookup list_lookup
         default from_option id].
    by rewrite bool_decide_false.
Qed.

Lemma main_help_witness :
  main sample_world ["--help"; "ec3"]
  = ([], inl (ValueError "Valid arguments --help ec2 | --help ebs | --help")).
Proof.
  apply (proj2 (proj2 (proj2 (proj2 (proj2
           (main_help sample_world ["ec3"])))))
          "ec3" [] eq_refl).
  intros Hin. repeat (apply elem_of_cons in Hin as [Hin|Hin];
                      [discriminate Hin|]).
  by apply elem_of_nil in Hin.
Defined.

(** X17: the options must directly follow the selector.  When the
    argument after [ec2] or [ebs] is not an option (it does not start
    with a dash, or is [-] or [--]), option parsing stops there, the
    options that come later are not read, and the dispatcher raises its
    missing-argument error without having done anything. *)
Theorem main_options_first w aws_service arg rest :
  aws_service ∈ ["ec2"; "ebs"] →
  String.prefix "-" arg = false ∨ arg = "-" ∨ arg = "--" →
  main w (aws_service :: arg :: rest)
  = ([], inl (ValueError
                "Missing any argument: --operation,--region,--profile")).
Proof.
  intros Hsvc Harg.
  assert (Hg : ∃ remaining,
             getopt.getopt (arg :: rest) options long_options
             = inr ([], remaining)).
  { unfold getopt.getopt. cbn [getopt.loop].
    destruct Harg as [Hp|[->| ->]]; [rewrite Hp|..]; cbn; eauto. }
  destruct Hg as [remaining Hg].
  assert (Hsvc' : aws_service = "ec2" ∨ aws_service = "ebs").
  { apply elem_of_cons in Hsvc as [->|Hsvc]; [by left|].
    apply elem_of_cons in Hsvc as [->|Hsvc]; [by right|].
    by apply elem_of_nil in Hsvc. }
  destruct Hsvc' as [-> | ->]; unfold main;
    cbn [String.eqb Ascii.eqb Bool.eqb tail];
    (rewrite bool_decide_true by (repeat constructor));
    rewrite Hg, bind_lift_inr; reflexivity.
Qed.

Lemma main_options_first_witness :
  main sample_world
    ["ec2"; "state"; "--operation"; "state"; "--region"; "us-east-1";
     "--profile"; "default"]
  = ([], inl (ValueError
                "Missing any argument: --operation,--region,--profile")).
Proof.
  apply main_options_first; [repeat constructor|left; reflexivity].
Defined.

Lemma network_calls_app t1 t2 :
  network_calls (t1 ++ t2) = network_calls t1 ++ network_calls t2.
Proof. apply List.filter_app. Qed.

Lemma get_profiles_shape fs profile path :
  ∃ o, get_profiles fs profile path = ([ReadConfig path], o)
       ∧ match fs path with
         | inl e => o = inl e
         | inr _ => ∃ p, o = inr p
         end.
Proof.
  destruct (fs path) as [e|config] eqn:Hfs.
  - exists (inl e). split; [|done].
    unfold get_profiles. by rewrite bind_emit, Hfs.
  - rewrite (get_profiles_run _ _ _ _ Hfs). eauto.
Qed.

(** A dispatched scan, whatever the scanner class: its outcome is that of
    reading the config file, and its calls to the service are those of
    its one query. *)
Lemma scan_facts {S R} fs profile (construct : profiles → Py S)
    (query : S → Py R) :
  (∀ p, ∃ s, outcome (construct p) = inr s) →
  (∀ p, network_calls (trace (construct p)) = []) →
  (∀ s, ∃ r, outcome (query s) = inr r) →
  let run :=
    let* scanner :=
      (let* prof := get_profiles fs profile "config" in construct prof) in
    let* _ := query scanner in ret tt in
  outcome run = match fs "config" with inl e => inl e | inr _ => inr tt end
  ∧ (network_calls (trace run) = []
     ∨ ∃ s, network_calls (trace run) = network_calls (trace (query s))).
Proof.
  intros Hc Hn Hq run. unfold run.
  destruct (get_profiles_shape fs profile "config") as (o & -> & Ho).
  destruct (fs "config") as [e|config].
  - subst o. by split; [|left].
  - destruct Ho as [p ->]. rewrite bind_pair_inr.
    specialize (Hc p). specialize (Hn p).
    destruct (construct p) as [tc [e|s]]; destruct Hc as [s' [= <-]].
    cbn [trace outcome fst snd] in *. rewrite bind_pair_inr.
    rewrite trace_bind, outcome_bind.
    destruct (Hq s) as [r Hr]. rewrite Hr. split; [done|].
    right. exists s. cbn [trace ret fst].
    rewrite !network_calls_app, app_nil_r, Hn. done.
Qed.

Lemma quiet_bind {A B} (m : Py A) (k : A → Py B) :
  quiet (trace m) → (∀ a, quiet (trace (k a))) → quiet (trace (bind m k)).
Proof.
  unfold quiet. intros Hm Hk. rewrite trace_bind, network_calls_app, Hm.
  destruct (outcome m); [done|apply Hk].
Qed.

Lemma quiet_try_except {A} (body handler : Py A) :
  quiet (trace body) → quiet (trace handler) →
  quiet (trace (try_except body handler)).
Proof.
  unfold quiet, try_except, trace.
  destruct body as [t [e|a]], handler as [t' r]; cbn [fst]; [|done].
  intros Hb Hh. by rewrite network_calls_app, Hb, Hh.
Qed.

Lemma quiet_profile_get p key : quiet (trace (profile_get p key)).
Proof. by destruct p. Qed.

Lemma construct_quiet w profile region operation fil sort :
  (∀ p, quiet (trace (
     let* handle :=
       try_except
         (let* key := profile_get p "aws_access_key_id" in
          let* secret := profile_get p "aws_secret_access_key" in
          let* _ := emit (Boto3Resource key secret region) in
          let* h := lift (boto3_resource w key secret region) in
          ret (Some h))
         (let* _ := emit (Print "Something went wrong while connecting to EC2") in
          ret None) in
     ret (EC2_Scanner.mk profile region operation fil sort handle))))
  ∧ (∀ p, quiet (trace (
       let* handle :=
         try_except
           (let* key := profile_get p "aws_access_key_id" in
            let* secret := profile_get p "aws_secret_access_key" in
            let* _ := emit (Boto3Client key secret region) in
            let* h := lift (boto3_client w key secret region) in
            ret (Some h))
           (let* _ := emit (Print "Something went wrong while connecting to EBS") in
            ret None) in
       ret (EBS_Scanner.mk profile region operation fil sort handle)))).
Proof.
  split; intros p;
    repeat first
      [ apply quiet_profile_get
      | apply quiet_try_except
      | apply quiet_bind; [|intros ?]
      | reflexivity ].
Qed.

Lemma query_calls_shape :
  (∀ self,
     (network_calls (trace (EC2_Scanner.get_instances_by_monitoring self)) = []
      ∨ ∃ values,
          network_calls (trace (EC2_Scanner.get_instances_by_monitoring self))
          = [InstancesFilter [mkFilter "monitoring-state" values]])
     ∧ (network_calls (trace (EC2_Scanner.get_instances_by_state self)) = []
        ∨ ∃ values,
            network_calls (trace (EC2_Scanner.get_instances_by_state self))
            = [InstancesFilter [mkFilter "instance-state-name" values]]))
  ∧ (∀ self,
       (network_calls (trace (EBS_Scanner.get_volumes_by_state self)) = []
        ∨ network_calls (trace (EBS_Scanner.get_volumes_by_state self))
          = [DescribeVolumes])
       ∧ (network_calls (trace (EBS_Scanner.get_volumes_by_encryption self))
          = []
          ∨ network_calls (trace (EBS_Scanner.get_volumes_by_encryption self))
            = [DescribeVolumes])).
Proof.
  split; intros self.
  - destruct (EC2_Scanner.ec2_resource self) as [h|] eqn:Hh.
    + rewrite (get_instances_by_monitoring_run self h Hh),
        (get_instances_by_state_run self h Hh). cbv zeta.
      split; right; eexists;
        by destruct (instances_filter h _) as [?|[|??]].
    + unfold EC2_Scanner.get_instances_by_monitoring,
        EC2_Scanner.get_instances_by_state, EC2_Scanner.filter_instances.
      rewrite Hh. split; by left.
  - destruct (EBS_Scanner.described self) as [[e|resp]|] eqn:Hd.
    + unfold EBS_Scanner.described in Hd.
      unfold EBS_Scanner.get_volumes_by_state,
        EBS_Scanner.get_volumes_by_encryption,
        EBS_Scanner.call_describe_volumes.
      destruct (EBS_Scanner.ec2_client self) as [h|]; [|discriminate].
      injection Hd as Hd. rewrite !bind_emit, Hd. split; by right.
    + rewrite (get_volumes_by_state_run self resp Hd),
        (get_volumes_by_encryption_run self resp Hd). cbv zeta.
      split; right.
      * destruct (EBS_Scanner.accumulated _ _); [done|].
        destruct (len _ =? 0)%nat; [done|].
        destruct (truthy _); [|done]. by destruct (decide _).
      * destruct (0 <? _)%nat; [|done]. by destruct (decide _).
    + unfold EBS_Scanner.described in Hd.
      unfold EBS_Scanner.get_volumes_by_state,
        EBS_Scanner.get_volumes_by_encryption,
        EBS_Scanner.call_describe_volumes.
      destruct (EBS_Scanner.ec2_client self) as [h|]; [discriminate|].
      split; by left.
Qed.

(** X10: no query lets an exception out, and no query makes more than
    one call to the service. *)
Theorem query_one_call :
  (∀ self,
     (∃ r, outcome (EC2_Scanner.get_instances_by_monitoring self) = inr r)
     ∧ (∃ r, outcome (EC2_Scanner.get_instances_by_state self) = inr r)
     ∧ (length (network_calls
                  (trace (EC2_Scanner.get_instances_by_monitoring self)))
        ≤ 1)%nat
     ∧ (length (network_calls
                  (trace (EC2_Scanner.get_instances_by_state self))) ≤ 1)%nat)
  ∧ (∀ self,
       (∃ r, outcome (EBS_Scanner.get_volumes_by_state self) = inr r)
       ∧ (∃ r, outcome (EBS_Scanner.get_volumes_by_encryption self) = inr r)
       ∧ (length (network_calls
                    (trace (EBS_Scanner.get_volumes_by_state self)))
          ≤ 1)%nat
       ∧ (length (network_calls
                    (trace (EBS_Scanner.get_volumes_by_encryption self)))
          ≤ 1)%nat).
Proof.
  destruct query_returns as (Hq1 & Hq2 & Hq3 & Hq4).
  destruct query_calls_shape as [Hec2 Hebs].
  split; intros self; (split; [done|]); (split; [done|]).
  - destruct (Hec2 self) as [[->|[? ->]] [->|[? ->]]]; cbn; lia.
  - destruct (Hebs self) as [[->| ->] [->| ->]]; cbn; lia.
Qed.

(** The dispatched scan of an invocation that provides the three
    required options. *)
Lemma main_scan_facts w aws_service rest d :
  aws_service ∈ ["ec2"; "ebs"] →
  parsed_options rest = Some d →
  is_Some (d !! "--operation") →
  is_Some (d !! "--region") →
  is_Some (d !! "--profile") →
  let run := main w (aws_service :: rest) in
  let state := bool_decide (d !! "--operation" = Some "state") in
  outcome run = match fs w "config" with inl e => inl e | inr _ => inr tt end
  ∧ (network_calls (trace run) = []
     ∨ (aws_service = "ec2"
        ∧ ∃ s, network_calls (trace run)
               = network_calls
                   (trace (if state
                           then EC2_Scanner.get_instances_by_state s
                           else EC2_Scanner.get_instances_by_monitoring s)))
     ∨ (aws_service = "ebs"
        ∧ ∃ s, network_calls (trace run)
               = network_calls
                   (trace (if state
                           then EBS_Scanner.get_volumes_by_state s
                           else EBS_Scanner.get_volumes_by_encryption s)))).
Proof.
  intros Hsvc Hparsed Ho Hr Hp run state. unfold parsed_options in Hparsed.
  destruct (getopt.getopt rest options long_options) as [e|parsed] eqn:Hg;
    [discriminate|].
  injection Hparsed as <-.
  destruct query_returns as (Hq1 & Hq2 & Hq3 & Hq4).
  destruct (construct_quiet w (dict_of_pairs parsed.1 !! "--profile")
              (dict_of_pairs parsed.1 !! "--region")
              (dict_of_pairs parsed.1 !! "--operation")
              (dict_of_pairs parsed.1 !! "--filter")
              (dict_of_pairs parsed.1 !! "--sort")) as [Hc1 Hc2].
  assert (Hsvc' : aws_service = "ec2" ∨ aws_service = "ebs").
  { apply elem_of_cons in Hsvc as [->|Hsvc]; [by left|].
    apply elem_of_cons in Hsvc as [->|Hsvc]; [by right|].
    by apply elem_of_nil in Hsvc. }
  destruct Hsvc' as [-> | ->]; unfold run, main;
    cbn [String.eqb Ascii.eqb Bool.eqb tail];
    (rewrite bool_decide_true by (repeat constructor));
    rewrite Hg, bind_lift_inr;
    rewrite !(bool_decide_true (is_Some _)) by done; cbn [andb];
    unfold state; destruct (bool_decide _).
  all: unfold EC2_Scanner.__init__, EBS_Scanner.__init__;
    match goal with
    | |- context [bind (bind (get_profiles ?f ?p "config") ?c)
                    (λ x, bind (?q x) _)] =>
        destruct (scan_facts f p c q) as [Hout Hcalls];
          [ intros prof; apply bind_ret_returns;
            by apply (try_except_outcome _ _ None)
          | first [exact Hc1 | exact Hc2]
          | first [exact Hq1 | exact Hq2 | exact Hq3 | exact Hq4]
          | split; [exact Hout|]; destruct Hcalls as [?|?]; eauto 6 ]
    end.
Qed.

Lemma help_quiet t : Forall is_Help t → network_calls t = [].
Proof.
  induction 1 as [|ev t [cls ->] _ IH]; [done|]. exact IH.
Qed.

(** What an invocation can raise, and the calls it can make. *)
Lemma main_facts w argumentList :
  (∀ e, outcome (main w argumentList) = inl e →
        argument_error e ∨ fs w "config" = inl e)
  ∧ (network_calls (trace (main w argumentList)) = []
     ∨ (∃ rest d values,
          argumentList = "ec2" :: rest ∧ parsed_options rest = Some d
          ∧ network_calls (trace (main w argumentList))
            = [InstancesFilter [mkFilter (routed_name d) values]])
     ∨ (∃ rest, argumentList = "ebs" :: rest
                ∧ network_calls (trace (main w argumentList))
                  = [DescribeVolumes])).
Proof.
  unfold argument_error.
  destruct argumentList as [|a rest]; [split; [intros e [= <-]|]; eauto|].
  destruct (String.eqb a "--help") eqn:Hh.
  { apply String.eqb_eq in Hh as ->. unfold main.
    cbn [String.eqb Ascii.eqb Bool.eqb].
    destruct (bool_decide _); [|split; [intros e [= <-]|]; eauto 6].
    rewrite trace_bind, outcome_bind. cbn [lift trace outcome fst snd app].
    destruct (getopt.getopt _ _ _) as [e'|parsed] eqn:Hg.
    - split; [|by left]. intros e [= <-]. left. do 4 right.
      by eapply getopt_error.
    - destruct (print_help_run parsed.1) as [Ht Ho]. rewrite Ho.
      split; [discriminate|]. left. by apply help_quiet. }
  destruct (decide (a ∈ ["ec2"; "ebs"])) as [Hsvc|Hsvc].
  2: { unfold main. rewrite Hh, bool_decide_false by done.
       split; [intros e [= <-]|]; eauto 6. }
  destruct (getopt.getopt rest options long_options) as [e'|parsed] eqn:Hg.
  { unfold main. rewrite Hh, bool_decide_true by done. cbn [tail].
    rewrite Hg. split; [|by left]. intros e [= <-]. left. do 4 right.
    by eapply getopt_error. }
  set (d := dict_of_pairs parsed.1).
  assert (Hparsed : parsed_options rest = Some d)
    by (unfold parsed_options; by rewrite Hg).
  destruct (bool_decide (is_Some (d !! "--operation"))
            && bool_decide (is_Some (d !! "--region"))
            && bool_decide (is_Some (d !! "--profile"))) eqn:Hreq.
  2: { unfold main. rewrite Hh, bool_decide_true by done. cbn [tail].
       rewrite Hg, bind_lift_inr. fold d. rewrite Hreq.
       split; [intros e [= <-]|]; eauto 6. }
  apply andb_true_iff in Hreq as [Hreq Hp].
  apply andb_true_iff in Hreq as [Ho Hr].
  apply bool_decide_eq_true in Ho, Hr, Hp.
  destruct (main_scan_facts w a rest d Hsvc Hparsed Ho Hr Hp)
    as [Hout Hcalls].
  split.
  - intros e He. rewrite Hout in He. right.
    destruct (fs w "config"); [by injection He as ->|discriminate].
  - destruct query_calls_shape as [Hec2 Hebs].
    destruct Hcalls as [?|[[-> [s Hs]]|[-> [s Hs]]]]; [by left|..];
      rewrite Hs.
    + destruct (bool_decide _) eqn:Hb;
        [destruct (proj2 (Hec2 s)) as [->|[values ->]]
        |destruct (proj1 (Hec2 s)) as [->|[values ->]]];
        [by left| |by left|];
        right; left; exists rest, d, values;
        (split; [done|]); (split; [done|]);
        unfold routed_name; by rewrite Hb.
    + destruct (bool_decide _);
        [destruct (proj1 (Hebs s)) as [->| ->]
        |destruct (proj2 (Hebs s)) as [->| ->]];
        eauto 8.
Qed.

(** X18: the only exceptions that leave the program are the
    dispatcher's own argument errors, [getopt]'s errors and an error of
    reading the config file.  Nothing that goes wrong in opening an SDK
    handle or in calling the service ever does. *)
Theorem main_raises w argumentList e :
  outcome (main w argumentList) = inl e →
  argument_error e ∨ fs w "config" = inl e.
Proof. apply main_facts. Qed.

Lemma main_raises_witness :
  argument_error (Exception "Please provide arguments.")
  ∨ fs sample_world "config" = inl (Exception "Please provide arguments.").
Proof.
  exact (main_raises sample_world [] (Exception "Please provide arguments.")
           eq_refl).
Defined.

(** X19: an invocation makes at most one call to the service, whatever
    its arguments. *)
Theorem main_one_call w argumentList :
  (length (network_calls (trace (main w argumentList))) ≤ 1)%nat.
Proof.
  destruct (proj2 (main_facts w argumentList))
    as [->|[(? & ? & ? & _ & _ & ->)|(? & _ & ->)]]; cbn; lia.
Qed.

Lemma requests_network_calls t : requests (network_calls t) = requests t.
Proof.
  induction t as [|ev t IH]; [done|].
  destruct ev; cbn; try done; by f_equal.
Qed.

(** X20: the selector and [--operation] decide what is asked of the
    service.  An [ec2] invocation lists instances, if it calls at all, by
    [instance-state-name] when [--operation] is [state] and by
    [monitoring-state] otherwise, and never describes volumes; an [ebs]
    invocation never lists instances. *)
Theorem main_routes w rest :
  (∀ F, F ∈ requests (trace (main w ("ec2" :: rest))) →
        ∃ d values, parsed_options rest = Some d
                    ∧ F = [mkFilter (routed_name d) values])
  ∧ (DescribeVolumes ∉ network_calls (trace (main w ("ec2" :: rest))))
  ∧ requests (trace (main w ("ebs" :: rest))) = [].
Proof.
  repeat split.
  - intros F. rewrite <- requests_network_calls.
    destruct (proj2 (main_facts w ("ec2" :: rest)))
      as [->|[(rest' & d & values & [= <-] & Hd & ->)|(? & [=] & _)]].
    + by intros ?%elem_of_nil.
    + intros ->%list_elem_of_singleton. eauto.
  - destruct (proj2 (main_facts w ("ec2" :: rest)))
      as [->|[(rest' & d & values & _ & _ & ->)|(? & [=] & _)]].
    + by intros ?%elem_of_nil.
    + by intros [=]%list_elem_of_singleton.
  - rewrite <- requests_network_calls.
    by destruct (proj2 (main_facts w ("ebs" :: rest)))
      as [->|[(rest' & d & values & [=] & _)|(? & _ & ->)]].
Qed.

Lemma main_routes_witness :
  ∃ d values,
    parsed_options ["--operation"; "monitoring"; "--region"; "us-east-1";
                    "--profile"; "default"] = Some d
    ∧ [mkFilter "monitoring-state" [""]] = [mkFilter (routed_name d) values].
Proof.
  apply (proj1 (main_routes sample_world
                  ["--operation"; "monitoring"; "--region"; "us-east-1";
                   "--profile"; "default"])).
  vm_compute. left.
Defined.

(** ** Rows of the state query's table *)

Lemma DataFrame_of_dict_len volume df k l :
  DataFrame_of_dict volume = inr df →
  volume !! k = Some (Array l) →
  len df = length l.
Proof.
  unfold DataFrame_of_dict. intros Hdf Hk.
  rewrite decide_False in Hdf by (intros ->; by rewrite lookup_empty in Hk).
  assert (Hin : length l ∈ omap (λ kv, array_length kv.2) (map_to_list volume)).
  { apply list_elem_of_omap. exists (k, Array l).
    split; [by apply elem_of_map_to_list | done]. }
  destruct (omap _ _) as [|n lengths]; [discriminate|].
  destruct (forallb (Nat.eqb n) lengths) eqn:Hall; [|discriminate].
  injection Hdf as <-. unfold len. cbn [rows].
  rewrite length_map, length_seq.
  apply elem_of_cons in Hin as [->|Hin]; [done|].
  apply list_elem_of_In in Hin.
  by apply Nat.eqb_eq, (proj1 (forallb_forall _ _) Hall).
Qed.

Lemma accumulate_rows acc volumes T :
  EBS_Scanner.accumulate acc volumes = inr T →
  length (rows T) = (length (rows acc) + sum_list (row_count <$> volumes))%nat
  ∧ Forall (λ v, ∃ df, DataFrame_of_dict v = inr df) volumes.
Proof.
  revert acc. induction volumes as [|v volumes IH]; intros acc; cbn.
  - intros [= <-]. split; [lia|constructor].
  - unfold row_count at 1.
    destruct (DataFrame_of_dict v) as [e|df] eqn:Hv; [discriminate|].
    intros Hacc. destruct (IH _ Hacc) as [Hlen Hall]. split.
    + rewrite Hlen. cbn [concat rows]. rewrite length_app. unfold len. lia.
    + constructor; eauto.
Qed.

(** X21: the table of the state query has one row per element of the
    volumes' list-valued attributes, not one row per volume: each volume
    contributes as many rows as any of its lists is long (a volume
    attached twice gives two rows, a volume attached nowhere none), and
    the table has the sum of these. *)
Theorem state_query_rows self resp T :
  EBS_Scanner.described self = Some (inr resp) →
  HTTPStatusCode resp = 200%Z →
  EBS_Scanner.accumulate DataFrame_empty (Volumes resp) = inr T →
  length (rows T) = sum_list (row_count <$> Volumes resp)
  ∧ (∀ v k l, v ∈ Volumes resp → v !! k = Some (Array l) →
              row_count v = length l)
  ∧ (rows T ≠ [] → truthy (EBS_Scanner.fil self) = false →
     outcome (EBS_Scanner.get_volumes_by_state self) = inr (RFrame T)).
Proof.
  intros Hd Hst Hacc. destruct (accumulate_rows _ _ _ Hacc) as [Hlen Hall].
  split; [exact Hlen|]. split.
  - intros v k l Hv Hk.
    destruct (proj1 (Forall_forall _ _) Hall v Hv) as [df Hdf].
    unfold row_count. rewrite Hdf. by eapply DataFrame_of_dict_len.
  - intros Hrows Hfil. rewrite (get_volumes_by_state_run self resp Hd).
    unfold EBS_Scanner.accumulated. rewrite Hst, Hacc, Hfil.
    cbn [Z.eqb Pos.eqb].
    assert ((len T =? 0)%nat = false) as ->; [|done].
    apply Nat.eqb_neq. unfold len. by destruct (rows T).
Qed.

Lemma state_query_rows_witness :
  length (rows sample_table) = sum_list (row_count <$> sample_volumes).
Proof.
  refine (proj1 (state_query_rows (sample_ebs None 200 sample_volumes)
                   (mkResponse 200 sample_volumes) sample_table
                   eq_refl eq_refl _)).
  vm_compute. reflexivity.
Defined.

(** ** The empty profile name *)

(** X22: with the empty string as profile name (and with no name), the
    resolver returns the full mapping, and the constructor then looks its
    two credentials up among the section names.  When no section bears
    those names, the SDK is asked for a handle with no credentials at
    all, and nothing is printed. *)
Theorem init_empty_profile w config profile region operation fil sort :
  fs w "config" = inr config →
  truthy profile = false →
  _sections config !! "aws_access_key_id" = None →
  _sections config !! "aws_secret_access_key" = None →
  trace (EC2_Scanner.__init__ w profile region operation fil sort)
  = ReadConfig "config" :: Boto3Resource CredNone CredNone region
      :: match boto3_resource w CredNone CredNone region with
         | inr _ => []
         | inl _ => [Print "Something went wrong while connecting to EC2"]
         end
  ∧ trace (EBS_Scanner.__init__ w profile region operation fil sort)
    = ReadConfig "config" :: Boto3Client CredNone CredNone region
        :: match boto3_client w CredNone CredNone region with
           | inr _ => []
           | inl _ => [Print "Something went wrong while connecting to EBS"]
           end.
Proof.
  intros Hfs Hp Hk Hs.
  unfold EC2_Scanner.__init__, EBS_Scanner.__init__.
  rewrite (get_profiles_run _ _ _ _ Hfs), Hp. cbv zeta.
  rewrite !bind_pair_inr. cbv beta. unfold profile_get.
  rewrite !lookup_delete_ne by done.
  rewrite !config_dict_section by done. rewrite Hk, Hs.
  cbn [fmap option_fmap option_map]. rewrite !bind_ret_l, !bind_emit.
  split.
  - by destruct (boto3_resource w CredNone CredNone region).
  - by destruct (boto3_client w CredNone CredNone region).
Qed.

Lemma init_empty_profile_witness :
  trace (EC2_Scanner.__init__ sample_world (Some "") (Some "us-east-1")
           (Some "state") None None)
  = [ReadConfig "config"; Boto3Resource CredNone CredNone (Some "us-east-1")].
Proof.
  refine (proj1 (init_empty_profile sample_world sample_config (Some "")
                   (Some "us-east-1") (Some "state") None None
                   eq_refl eq_refl _ _)); vm_compute; reflexivity.
Defined.

Lemma present_option_given_witness :
  ∃ arg,
    arg ∈ ["--op"; "state"; "--reg=us-east-1"; "--prof"; "default"]
    ∧ String.prefix "--r" arg = true.
Proof.
  apply (proj1 (proj2 (present_option_given
                         ["--op"; "state"; "--reg=us-east-1"; "--prof";
                          "default"]))).
  vm_compute. reflexivity.
Defined.
